(** * Arktos backend: the authentication subsystem

    A shallow embedding of the token issuer ([services/jwt.service.ts]),
    the authentication controller ([controllers/auth.controller.ts]) and
    the request gate ([middleware/index.ts]), and the properties of the
    specification that concern them.

    External collaborators are modelled symbolically:
    - [jsonwebtoken]: a signed token is the claim set together with the
      secret it was signed with; HS256 signing is deterministic, so two
      tokens with the same claims and secret are the same string;
    - [bcryptjs]: a hash records the plaintext and the salt, and
      [compare] succeeds exactly on the plaintext;
    - [zod]: the verdict of a schema on a request body is an input of the
      handler ([None] when [schema.parse] throws);
    - Prisma: the store is four tables of rows, with the unique columns
      and relations that the controller's [findUnique] and [include]
      calls rely on. *)

From Stdlib Require Import ZArith List String Ascii Bool Lia.
Import ListNotations.
Open Scope string_scope.
Open Scope list_scope.
Open Scope Z_scope.

(** ** JavaScript helpers *)

(** [String.prototype.toLowerCase], on ASCII letters. *)
Definition lower_ascii (c : ascii) : ascii :=
  let n := nat_of_ascii c in
  if ((65 <=? n) && (n <=? 90))%nat then ascii_of_nat (n + 32) else c.

Fixpoint toLowerCase (s : string) : string :=
  match s with
  | EmptyString => EmptyString
  | String c r => String (lower_ascii c) (toLowerCase r)
  end.

(** Truthiness of a string value: the empty string is falsy. *)
Definition truthy (s : string) : bool :=
  match s with EmptyString => false | _ => true end.

(** [process.env.X || dflt] *)
Definition env_or (v : option string) (dflt : string) : string :=
  match v with
  | Some s => if truthy s then s else dflt
  | None => dflt
  end.

(** [Math.floor(Date.now() / 1000)]: the clock is in milliseconds. *)
Definition seconds (now : Z) : Z := now / 1000.

(** ** The [ms] time-span format used by [jsonwebtoken]'s [expiresIn]

    Decimal digits followed by an optional unit; the units the
    configuration uses ([ms], [s], [m], [h], [d]) are covered, the result
    is in milliseconds, anything else is [undefined]. *)

Definition digit_of (c : ascii) : option Z :=
  let n := nat_of_ascii c in
  if ((48 <=? n) && (n <=? 57))%nat then Some (Z.of_nat (n - 48)) else None.

Fixpoint read_digits (acc : option Z) (s : string) : option Z * string :=
  match s with
  | EmptyString => (acc, EmptyString)
  | String c r =>
      match digit_of c with
      | Some d => read_digits (Some (10 * match acc with Some a => a | None => 0 end + d)) r
      | None => (acc, s)
      end
  end.

Definition ms (s : string) : option Z :=
  match read_digits None s with
  | (Some n, unit) =>
      if String.eqb unit "" then Some n
      else if String.eqb unit "ms" then Some n
      else if String.eqb unit "s" then Some (n * 1000)
      else if String.eqb unit "m" then Some (n * 60 * 1000)
      else if String.eqb unit "h" then Some (n * 60 * 60 * 1000)
      else if String.eqb unit "d" then Some (n * 24 * 60 * 60 * 1000)
      else None
  | (None, _) => None
  end.

(** ** jsonwebtoken *)

Definition UserId := nat.

Record Claims := mkClaims {
  c_userId : UserId;
  c_email : option string;
  c_role : option string;
  c_sessionId : option string;
  c_type : option string;
  c_iat : option Z;
  c_exp : option Z
}.

(** A token string: either a JWT, i.e. claims signed with a secret, or a
    string that is not a JWT at all. *)
Inductive Token :=
| Signed (claims : Claims) (secret : string)
| Opaque (s : string).

Definition option_eq_dec {A} (d : forall x y : A, {x = y} + {x <> y})
  (x y : option A) : {x = y} + {x <> y}.
Proof. decide equality. Defined.

Definition Claims_eq_dec (x y : Claims) : {x = y} + {x <> y}.
Proof.
  decide equality;
    try apply option_eq_dec;
    try apply Z.eq_dec; try apply string_dec; try apply Nat.eq_dec.
Defined.

Definition Token_eq_dec (x y : Token) : {x = y} + {x <> y}.
Proof.
  decide equality; try apply string_dec; try apply Claims_eq_dec.
Defined.

Definition Token_eqb (x y : Token) : bool :=
  if Token_eq_dec x y then true else false.

(** Truthiness of a token string ([if (refreshToken)]). *)
Definition token_truthy (t : Token) : bool :=
  match t with
  | Opaque s => truthy s
  | Signed _ _ => true
  end.

Inductive JwtError :=
| TokenExpiredError
| JsonWebTokenError.

Inductive Thrown :=
| JwtThrown (e : JwtError)
| PrismaThrown (code : string)
| ZodThrown
| ErrorThrown (message : string).

Module jwt.

(** [timespan(expiresIn, iat)]: the expiry in seconds. *)
Definition timespan (time : string) (iat : Z) : option Z :=
  match ms time with
  | Some millis => Some (iat + millis / 1000)
  | None => None
  end.

(** [jwt.sign(payload, secret, { expiresIn })]: [iat] is the payload's
    own when it has one, else the clock in seconds; [exp] is set only
    when [expiresIn] is given. Throws without a secret or on a time
    span it cannot read. *)
Definition sign (payload : Claims) (secret : option string)
    (expiresIn : option string) (now : Z) : Thrown + Token :=
  match secret with
  | None => inl (ErrorThrown "secretOrPrivateKey must have a value")
  | Some key =>
      if negb (truthy key)
      then inl (ErrorThrown "secretOrPrivateKey must have a value")
      else
        let timestamp :=
          match c_iat payload with Some i => i | None => seconds now end in
        match expiresIn with
        | None =>
            inr (Signed (mkClaims (c_userId payload) (c_email payload)
                           (c_role payload) (c_sessionId payload)
                           (c_type payload) (Some timestamp) None) key)
        | Some span =>
            match timespan span timestamp with
            | None => inl (ErrorThrown "expiresIn should be a number of seconds or string representing a timespan")
            | Some e =>
                inr (Signed (mkClaims (c_userId payload) (c_email payload)
                               (c_role payload) (c_sessionId payload)
                               (c_type payload) (Some timestamp) (Some e)) key)
            end
        end
  end.

(** [jwt.verify(token, secret)]: the signature is checked first, then
    the expiry, when the token carries one. *)
Definition verify (token : Token) (secret : option string) (now : Z)
    : Thrown + Claims :=
  match token with
  | Opaque _ => inl (JwtThrown JsonWebTokenError)
  | Signed claims key =>
      match secret with
      | None => inl (JwtThrown JsonWebTokenError)
      | Some s =>
          if negb (truthy s) then inl (JwtThrown JsonWebTokenError)
          else if negb (String.eqb key s) then inl (JwtThrown JsonWebTokenError)
          else
            match c_exp claims with
            | Some e =>
                if e <=? seconds now
                then inl (JwtThrown TokenExpiredError)
                else inr claims
            | None => inr claims
            end
      end
  end.

End jwt.

(** ** Environment *)

Record Env := mkEnv {
  JWT_SECRET : option string;
  JWT_REFRESH_SECRET : option string;
  JWT_EXPIRES_IN : option string;
  JWT_REFRESH_EXPIRES_IN : option string
}.

(** ** [parseInt], [endsWith] and [slice(0, -1)]

    [parseInt(s)] without a radix, on ASCII strings: leading white space
    and a sign are skipped, a [0x] prefix selects base sixteen, and the
    longest run of digits is read; [None] is [NaN]. *)

Definition is_space (c : ascii) : bool :=
  let n := nat_of_ascii c in
  ((9 <=? n) && (n <=? 13))%nat || Nat.eqb n 32.

Fixpoint skip_spaces (s : string) : string :=
  match s with
  | String c r => if is_space c then skip_spaces r else s
  | EmptyString => EmptyString
  end.

Definition hex_digit_of (c : ascii) : option Z :=
  let n := nat_of_ascii c in
  if ((48 <=? n) && (n <=? 57))%nat then Some (Z.of_nat (n - 48))
  else if ((97 <=? n) && (n <=? 102))%nat then Some (Z.of_nat (n - 87))
  else if ((65 <=? n) && (n <=? 70))%nat then Some (Z.of_nat (n - 55))
  else None.

Fixpoint read_radix (radix : Z) (digit : ascii -> option Z) (acc : option Z)
    (s : string) : option Z :=
  match s with
  | EmptyString => acc
  | String c r =>
      match digit c with
      | Some d =>
          read_radix radix digit
            (Some (radix * match acc with Some a => a | None => 0 end + d)) r
      | None => acc
      end
  end.

Definition parse_unsigned (s : string) : option Z :=
  match s with
  | String "0" (String "x" r) => read_radix 16 hex_digit_of None r
  | String "0" (String "X" r) => read_radix 16 hex_digit_of None r
  | _ => read_radix 10 digit_of None s
  end.

Definition parseInt (s : string) : option Z :=
  match skip_spaces s with
  | String "-" r => option_map Z.opp (parse_unsigned r)
  | String "+" r => parse_unsigned r
  | r => parse_unsigned r
  end.

Fixpoint endsWith (s : string) (c : ascii) : bool :=
  match s with
  | EmptyString => false
  | String a EmptyString => Ascii.eqb a c
  | String _ r => endsWith r c
  end.

(** [s.slice(0, -1)] *)
Fixpoint slice_last (s : string) : string :=
  match s with
  | EmptyString => EmptyString
  | String _ EmptyString => EmptyString
  | String a r => String a (slice_last r)
  end.

(** ** services/jwt.service.ts *)

Module JwtService.

Definition getAccessSecret (env : Env) : Thrown + string :=
  match JWT_SECRET env with
  | Some s =>
      if truthy s then inr s
      else inl (ErrorThrown "JWT_SECRET environment variable is not defined")
  | None => inl (ErrorThrown "JWT_SECRET environment variable is not defined")
  end.

Definition getRefreshSecret (env : Env) : Thrown + string :=
  match JWT_REFRESH_SECRET env with
  | Some s =>
      if truthy s then inr s
      else inl (ErrorThrown "JWT_REFRESH_SECRET environment variable is not defined")
  | None => inl (ErrorThrown "JWT_REFRESH_SECRET environment variable is not defined")
  end.

Definition getAccessExpiresIn (env : Env) : string :=
  env_or (JWT_EXPIRES_IN env) "15m".


(** The body of a [try] whose [catch] rethrows a fixed message. *)
Definition rethrow {A} (message : string) (r : Thrown + A) : Thrown + A :=
  match r with
  | inl _ => inl (ErrorThrown message)
  | inr a => inr a
  end.

Definition with_secret {A} (secret : Thrown + string)
    (k : string -> Thrown + A) : Thrown + A :=
  match secret with
  | inl e => inl e
  | inr s => k s
  end.

Definition generateAccessToken (env : Env) (now : Z)
    (userId : UserId) (email role sessionId : string) : Thrown + Token :=
  rethrow "Failed to generate access token"
    (let payload := mkClaims userId (Some email) (Some role)
                      (Some sessionId) (Some "access") None None in
     with_secret (getAccessSecret env) (fun secret =>
       jwt.sign payload (Some secret) (Some (getAccessExpiresIn env)) now)).


(** The [catch] of the verify functions: the two [jsonwebtoken] error
    classes get their own message, anything else the generic one. *)
Definition verify_catch {A} (expired invalid failed : string)
    (r : Thrown + A) : Thrown + A :=
  match r with
  | inl (JwtThrown TokenExpiredError) => inl (ErrorThrown expired)
  | inl (JwtThrown JsonWebTokenError) => inl (ErrorThrown invalid)
  | inl _ => inl (ErrorThrown failed)
  | inr a => inr a
  end.

Definition verifyAccessToken (env : Env) (now : Z) (token : Token)
    : Thrown + Claims :=
  verify_catch "Access token expired" "Invalid access token"
    "Access token verification failed"
    (with_secret (getAccessSecret env) (fun secret =>
       jwt.verify token (Some secret) now)).

Definition verifyRefreshToken (env : Env) (now : Z) (token : Token)
    : Thrown + Claims :=
  verify_catch "Refresh token expired" "Invalid refresh token"
    "Refresh token verification failed"
    (with_secret (getRefreshSecret env) (fun secret =>
       jwt.verify token (Some secret) now)).

Definition generatePasswordResetToken (env : Env) (now : Z)
    (userId : UserId) (email : string) : Thrown + Token :=
  rethrow "Failed to generate password reset token"
    (let payload := mkClaims userId (Some email) None None
                      (Some "password_reset") (Some (seconds now)) None in
     with_secret (getAccessSecret env) (fun secret =>
       jwt.sign payload (Some secret) (Some "1h") now)).

Definition has_type (claims : Claims) (t : string) : bool :=
  match c_type claims with
  | Some ty => String.eqb ty t
  | None => false
  end.

Definition verifyPasswordResetToken (env : Env) (now : Z) (token : Token)
    : Thrown + (UserId * option string * option Z) :=
  verify_catch "Password reset token expired" "Invalid password reset token"
    "Password reset token verification failed"
    (with_secret (getAccessSecret env) (fun secret =>
       match jwt.verify token (Some secret) now with
       | inl e => inl e
       | inr decoded =>
           if negb (has_type decoded "password_reset")
           then inl (ErrorThrown "Invalid token type")
           else inr (c_userId decoded, c_email decoded, c_iat decoded)
       end)).

Definition generateEmailVerifyToken (env : Env) (now : Z)
    (userId : UserId) (email : string) : Thrown + Token :=
  rethrow "Failed to generate email verification token"
    (let payload := mkClaims userId (Some email) None None
                      (Some "email_verify") None None in
     with_secret (getAccessSecret env) (fun secret =>
       jwt.sign payload (Some secret) (Some "24h") now)).

Definition verifyEmailVerifyToken (env : Env) (now : Z) (token : Token)
    : Thrown + (UserId * option string) :=
  verify_catch "Email verification token expired"
    "Invalid email verification token"
    "Email verification token verification failed"
    (with_secret (getAccessSecret env) (fun secret =>
       match jwt.verify token (Some secret) now with
       | inl e => inl e
       | inr decoded =>
           if negb (has_type decoded "email_verify")
           then inl (ErrorThrown "Invalid token type")
           else inr (c_userId decoded, c_email decoded)
       end)).

(** [NaN] is [None]; nothing in the [try] throws. *)
Definition getExpiresInSeconds (env : Env) : option Z :=
  let expiresIn := getAccessExpiresIn env in
  if endsWith expiresIn "h"
  then option_map (fun n => n * 3600) (parseInt (slice_last expiresIn))
  else if endsWith expiresIn "m"
  then option_map (fun n => n * 60) (parseInt (slice_last expiresIn))
  else if endsWith expiresIn "d"
  then option_map (fun n => n * 24 * 3600) (parseInt (slice_last expiresIn))
  else if endsWith expiresIn "s"
  then parseInt (slice_last expiresIn)
  else parseInt expiresIn.

End JwtService.

(** ** bcryptjs *)

Record PwHash := mkPwHash {
  h_plain : string;
  h_salt : string
}.

Module bcrypt.
Definition hash (password salt : string) : PwHash := mkPwHash password salt.
Definition compare (password : string) (h : PwHash) : bool :=
  String.eqb password (h_plain h).
End bcrypt.

(** ** The data model (Prisma schema) *)

Inductive Role := USER | ADMIN | MODERATOR.

Inductive VerificationStatus := PENDING | VERIFIED.

Record User := mkUser {
  u_id : UserId;
  u_email : string;
  u_username : option string;
  u_password : PwHash;
  u_firstName : option string;
  u_lastName : option string;
  u_avatar : option string;
  u_role : Role;
  u_isActive : bool;
  u_isEmailVerified : bool;
  u_emailVerifiedAt : option Z;
  u_lastLoginAt : option Z;
  u_createdAt : Z;
  u_updatedAt : Z
}.

Record LoginLog := mkLoginLog {
  ll_id : nat;
  ll_userId : UserId;
  ll_loginType : string;
  ll_ipAddress : string;
  ll_userAgent : string;
  ll_isSuccess : bool;
  ll_failReason : option string;
  ll_createdAt : Z
}.

Record EmailVerification := mkEmailVerification {
  ev_id : nat;
  ev_userId : UserId;
  ev_token : string;
  ev_email : string;
  ev_status : VerificationStatus;
  ev_expiresAt : Z
}.

Record RefreshToken := mkRefreshToken {
  rt_id : nat;
  rt_userId : UserId;
  rt_token : Token;
  rt_isRevoked : bool;
  rt_expiresAt : Z
}.

(** The [data] argument of [prisma.user.update]: the columns to write. *)
Record UserData := mkUserData {
  d_username : option string;
  d_password : option PwHash;
  d_firstName : option string;
  d_lastName : option string;
  d_avatar : option string;
  d_isEmailVerified : option bool;
  d_lastLoginAt : option Z
}.

Definition or_keep {A} (new : option A) (old : A) : A :=
  match new with Some x => x | None => old end.

Definition apply_data (d : UserData) (u : User) : User :=
  mkUser (u_id u) (u_email u)
    (match d_username d with Some n => Some n | None => u_username u end)
    (or_keep (d_password d) (u_password u))
    (match d_firstName d with Some n => Some n | None => u_firstName u end)
    (match d_lastName d with Some n => Some n | None => u_lastName u end)
    (match d_avatar d with Some n => Some n | None => u_avatar u end)
    (u_role u) (u_isActive u)
    (or_keep (d_isEmailVerified d) (u_isEmailVerified u))
    (u_emailVerifiedAt u)
    (match d_lastLoginAt d with Some t => Some t | None => u_lastLoginAt u end)
    (u_createdAt u) (u_updatedAt u).

(** The store: one list of rows per table, in insertion order, and the
    next identifier the database hands out. *)
Record Store := mkStore {
  users : list User;
  loginLogs : list LoginLog;
  emailVerifications : list EmailVerification;
  refreshTokens : list RefreshToken;
  nextId : nat
}.

Definition empty_store : Store := mkStore [] [] [] [] 0.

(** ** Computations over the store that may throw

    A handler is a sequence of awaited store calls inside [try]/[catch];
    no transaction is opened, so the writes made before a throw stay. *)

Definition M (A : Type) : Type := Store -> (Thrown + A) * Store.

Definition ret {A} (a : A) : M A := fun db => (inr a, db).

Definition throw {A} (e : Thrown) : M A := fun db => (inl e, db).

Definition bind {A B} (m : M A) (k : A -> M B) : M B :=
  fun db =>
    match m db with
    | (inl e, db') => (inl e, db')
    | (inr a, db') => k a db'
    end.

Definition try_catch {A} (m : M A) (handler : Thrown -> M A) : M A :=
  fun db =>
    match m db with
    | (inl e, db') => handler e db'
    | (inr a, db') => (inr a, db')
    end.

Definition lift {A} (r : Thrown + A) : M A := fun db => (r, db).

Declare Scope monad_scope.
Delimit Scope monad_scope with monad.
Notation "x <- m ;; k" := (bind m (fun x => k))
  (at level 61, m at next level, right associativity) : monad_scope.
Notation "m ;;; k" := (bind m (fun _ => k))
  (at level 61, right associativity) : monad_scope.
Open Scope monad_scope.

(** ** Prisma client

    The schema file ([prisma/schema.prisma]) is not part of the sources;
    what the client does with it is taken from the controller's calls and
    from the specification's data model: [email], [username] and the two
    [token] columns are unique (the controller reads them with
    [findUnique]), and every row that carries a [userId] references a
    user. A write that breaks one of these throws. *)

Module prisma.

Definition opt_eqb (a : option string) (b : string) : bool :=
  match a with Some x => String.eqb x b | None => false end.

Definition user_findUnique_email (email : string) : M (option User) :=
  fun db => (inr (find (fun u => String.eqb (u_email u) email) (users db)), db).

Definition user_findUnique_username (username : string) : M (option User) :=
  fun db => (inr (find (fun u => opt_eqb (u_username u) username) (users db)), db).

Definition user_findUnique_id (id : UserId) : M (option User) :=
  fun db => (inr (find (fun u => Nat.eqb (u_id u) id) (users db)), db).

Definition user_exists (id : UserId) (db : Store) : bool :=
  existsb (fun u => Nat.eqb (u_id u) id) (users db).

Definition username_taken (username : option string) (us : list User) : bool :=
  match username with
  | Some n => existsb (fun u => opt_eqb (u_username u) n) us
  | None => false
  end.

(** Modelled from the spec: the column defaults of [User], which the
    missing schema declares. A new user is active, has role [USER], an
    unverified e-mail and no login yet; [email] and [username] are
    unique. *)
Definition user_create (now : Z) (email : string) (password : PwHash)
    (firstName lastName username : option string) : M User :=
  fun db =>
    if existsb (fun u => String.eqb (u_email u) email) (users db)
       || username_taken username (users db)
    then (inl (PrismaThrown "P2002"), db)
    else
      let u := mkUser (nextId db) email username password firstName lastName
                 None USER true false None None now now in
      (inr u, mkStore (users db ++ [u]) (loginLogs db)
                (emailVerifications db) (refreshTokens db) (S (nextId db))).

(** [prisma.user.update({ where: { id }, data })]: only the columns
    named in [data] are written, and a written [username] must not
    belong to another row. *)
Definition user_update (id : UserId) (data : UserData) : M User :=
  fun db =>
    match find (fun u => Nat.eqb (u_id u) id) (users db) with
    | None => (inl (PrismaThrown "P2025"), db)
    | Some u =>
        if username_taken (d_username data)
             (filter (fun x => negb (Nat.eqb (u_id x) id)) (users db))
        then (inl (PrismaThrown "P2002"), db)
        else
          (inr (apply_data data u),
           mkStore (map (fun x => if Nat.eqb (u_id x) id
                                  then apply_data data x else x) (users db))
             (loginLogs db) (emailVerifications db) (refreshTokens db)
             (nextId db))
    end.

Definition loginLog_create (now : Z) (userId : UserId)
    (loginType ipAddress userAgent : string) (isSuccess : bool)
    (failReason : option string) : M LoginLog :=
  fun db =>
    if negb (user_exists userId db)
    then (inl (PrismaThrown "P2003"), db)
    else
      let l := mkLoginLog (nextId db) userId loginType ipAddress userAgent
                 isSuccess failReason now in
      (inr l, mkStore (users db) (loginLogs db ++ [l])
                (emailVerifications db) (refreshTokens db) (S (nextId db))).

Definition emailVerification_findUnique_token (token : string)
    : M (option EmailVerification) :=
  fun db =>
    (inr (find (fun v => String.eqb (ev_token v) token) (emailVerifications db)), db).

(** Modelled from the spec: the missing schema's default status of an
    [EmailVerification] is [PENDING]; [token] is unique. *)
Definition emailVerification_create (userId : UserId) (token email : string)
    (expiresAt : Z) : M EmailVerification :=
  fun db =>
    if existsb (fun v => String.eqb (ev_token v) token) (emailVerifications db)
    then (inl (PrismaThrown "P2002"), db)
    else if negb (user_exists userId db)
    then (inl (PrismaThrown "P2003"), db)
    else
      let v := mkEmailVerification (nextId db) userId token email PENDING
                 expiresAt in
      (inr v, mkStore (users db) (loginLogs db)
                (emailVerifications db ++ [v]) (refreshTokens db)
                (S (nextId db))).

Definition set_status (s : VerificationStatus) (v : EmailVerification)
    : EmailVerification :=
  mkEmailVerification (ev_id v) (ev_userId v) (ev_token v) (ev_email v) s
    (ev_expiresAt v).

Definition emailVerification_update_status (id : nat)
    (s : VerificationStatus) : M EmailVerification :=
  fun db =>
    match find (fun v => Nat.eqb (ev_id v) id) (emailVerifications db) with
    | None => (inl (PrismaThrown "P2025"), db)
    | Some v =>
        (inr (set_status s v),
         mkStore (users db) (loginLogs db)
           (map (fun x => if Nat.eqb (ev_id x) id then set_status s x else x)
              (emailVerifications db))
           (refreshTokens db) (nextId db))
    end.

Definition refreshToken_findUnique_token (token : Token)
    : M (option RefreshToken) :=
  fun db =>
    (inr (find (fun r => Token_eqb (rt_token r) token) (refreshTokens db)), db).

(** Modelled from the spec: the missing schema's default of [isRevoked]
    is [false]; [token] is unique. *)
Definition refreshToken_create (userId : UserId) (token : Token)
    (expiresAt : Z) : M RefreshToken :=
  fun db =>
    if existsb (fun r => Token_eqb (rt_token r) token) (refreshTokens db)
    then (inl (PrismaThrown "P2002"), db)
    else if negb (user_exists userId db)
    then (inl (PrismaThrown "P2003"), db)
    else
      let r := mkRefreshToken (nextId db) userId token false expiresAt in
      (inr r, mkStore (users db) (loginLogs db) (emailVerifications db)
                (refreshTokens db ++ [r]) (S (nextId db))).

Definition revoke (r : RefreshToken) : RefreshToken :=
  mkRefreshToken (rt_id r) (rt_userId r) (rt_token r) true (rt_expiresAt r).

(** [update({ where: { id }, data: { isRevoked: true } })] *)
Definition refreshToken_update_revoke (id : nat) : M RefreshToken :=
  fun db =>
    match find (fun r => Nat.eqb (rt_id r) id) (refreshTokens db) with
    | None => (inl (PrismaThrown "P2025"), db)
    | Some r =>
        (inr (revoke r),
         mkStore (users db) (loginLogs db) (emailVerifications db)
           (map (fun x => if Nat.eqb (rt_id x) id then revoke x else x)
              (refreshTokens db))
           (nextId db))
    end.

(** [updateMany({ where, data: { isRevoked: true } })] returns the
    number of rows matched. *)
Definition refreshToken_updateMany_revoke (where_ : RefreshToken -> bool)
    : M nat :=
  fun db =>
    (inr (List.length (filter where_ (refreshTokens db))),
     mkStore (users db) (loginLogs db) (emailVerifications db)
       (map (fun x => if where_ x then revoke x else x) (refreshTokens db))
       (nextId db)).

End prisma.

(** ** utils/response.ts *)

(** [ERROR_CODES.K] is written as its key [K]: the table itself
    ([constants/errorCodes.ts]) is not among the sources. *)
Inductive ErrorCodeKey :=
| AUTH_USER_EXISTS
| AUTH_USERNAME_TAKEN
| AUTH_INVALID_CREDENTIALS
| AUTH_ACCOUNT_DEACTIVATED
| AUTH_TOKEN_EXPIRED
| AUTH_TOKEN_INVALID
| AUTH_TOKEN_REQUIRED
| AUTH_INVALID_TOKEN
| AUTH_USER_NOT_FOUND
| AUTH_INVALID_PASSWORD
| INTERNAL_ERROR.

Inductive Code :=
| ERROR_CODES (k : ErrorCodeKey)
| Literal (s : string).

Local Unset Elimination Schemes.
Inductive Json :=
| JNull
| JBool (b : bool)
| JNum (n : Z)
| JStr (s : string)
| JToken (t : Token)
| JObj (fields : list (string * Json)).
Local Set Elimination Schemes.

Record ApiResponse := mkApiResponse {
  success : bool;
  message : option string;
  data : option Json;
  error : option string;
  code : option Code;
  timestamp : Z
}.

Definition createSuccessResponse (now : Z) (data : Json) (message code : string)
    : ApiResponse :=
  mkApiResponse true (Some message) (Some data) None (Some (Literal code)) now.

Definition createErrorResponse (now : Z) (message : string) (code : ErrorCodeKey)
    : ApiResponse :=
  mkApiResponse false (Some message) None (Some message)
    (Some (ERROR_CODES code)) now.

(** What the caller sees: [res.status(s).json(body)]. *)
Record Response := mkResponse {
  status : Z;
  body : ApiResponse
}.

Definition json_opt (s : option string) : Json :=
  match s with Some x => JStr x | None => JNull end.

Definition json_date (d : option Z) : Json :=
  match d with Some x => JNum x | None => JNull end.

Definition json_role (r : Role) : Json :=
  match r with
  | USER => JStr "USER"
  | ADMIN => JStr "ADMIN"
  | MODERATOR => JStr "MODERATOR"
  end.

(** ** Requests *)

Inductive AuthHeader :=
| Bearer (token : Token)
| OtherScheme (value : string).

Record Request := mkRequest {
  req_ip : option string;
  req_remoteAddress : option string;
  req_userAgent : option string;
  req_authorization : option AuthHeader
}.

(** What a handler reads from its surroundings while it runs: the clock
    ([Date.now()], in milliseconds), [crypto.randomBytes(32)] in hex, and
    the salt [bcrypt] draws. *)
Record Sys := mkSys {
  now : Z;
  randomBytes : string;
  salt : string
}.

(** [req.user], as the request gate attaches it. *)
Record AuthUser := mkAuthUser {
  a_id : UserId;
  a_email : string;
  a_firstName : option string;
  a_lastName : option string;
  a_username : option string;
  a_avatar : option string;
  a_role : Role;
  a_isEmailVerified : bool;
  a_isActive : bool;
  a_emailVerifiedAt : option Z;
  a_lastLoginAt : option Z;
  a_createdAt : Z;
  a_updatedAt : Z
}.

(** Validated request bodies (the [zod] schemas' output types). *)
Record RegisterSchema := mkRegisterSchema {
  rs_email : string;
  rs_password : string;
  rs_firstName : option string;
  rs_lastName : option string;
  rs_username : option string
}.

Record LoginSchema := mkLoginSchema {
  ls_email : string;
  ls_password : string
}.

Record UpdateProfileSchema := mkUpdateProfileSchema {
  up_firstName : option string;
  up_lastName : option string;
  up_username : option string;
  up_avatar : option string
}.

Record ChangePasswordSchema := mkChangePasswordSchema {
  cp_currentPassword : string;
  cp_newPassword : string
}.

(** [validation.request(schema, req.body)]: the parsed body, or a throw. *)
Definition validation_request {A} (parsed : option A) : M A :=
  match parsed with
  | Some a => ret a
  | None => throw ZodThrown
  end.

(** ** controllers/auth.controller.ts *)

Definition Handler := Store -> Response * Store.

(** The outer [try { ... } catch (error) { res.status(500)... }]. *)
Definition handle (m : M Response) (on_throw : Response) : Handler :=
  fun db =>
    match m db with
    | (inr r, db') => (r, db')
    | (inl _, db') => (on_throw, db')
    end.

Definition internal_error (now : Z) : Response :=
  mkResponse 500 (createErrorResponse now "Internal server error" INTERNAL_ERROR).

(** [expiresAt.setDate(expiresAt.getDate() + n)], on a clock in
    milliseconds. *)
Definition days (n : Z) : Z := n * 24 * 60 * 60 * 1000.

Record TokenPair := mkTokenPair {
  accessToken : Token;
  newRefreshToken : Token
}.

Definition generateTokens (env : Env) (now : Z) (userId : UserId)
    : Thrown + TokenPair :=
  let payload := mkClaims userId None None None None None None in
  match jwt.sign payload (JWT_SECRET env) None now with
  | inl e => inl e
  | inr access =>
      match jwt.sign payload (JWT_REFRESH_SECRET env) None now with
      | inl e => inl e
      | inr refresh => inr (mkTokenPair access refresh)
      end
  end.

Definition clientIP (req : Request) : string :=
  match req_ip req with
  | Some ip => if truthy ip then ip else env_or (req_remoteAddress req) "unknown"
  | None => env_or (req_remoteAddress req) "unknown"
  end.

(** [userId] is [None] for the literal ['unknown']. *)
Definition logLoginAttempt (now : Z) (userId : option UserId) (req : Request)
    (isSuccess : bool) (failReason : option string) : M unit :=
  try_catch
    (match userId with
     | None => ret tt
     | Some uid =>
         prisma.loginLog_create now uid "EMAIL" (clientIP req)
           (env_or (req_userAgent req) "unknown") isSuccess failReason ;;;
         ret tt
     end)
    (fun _ => ret tt).

Definition register (sys : Sys) (req : Request)
    (parsed : option RegisterSchema) : Handler :=
  handle
    (validatedData <- validation_request parsed ;;
     let email := rs_email validatedData in
     let username := rs_username validatedData in
     existingUser <- prisma.user_findUnique_email (toLowerCase email) ;;
     match existingUser with
     | Some _ =>
         ret (mkResponse 409 (createErrorResponse (now sys)
                "User already exists with this email" AUTH_USER_EXISTS))
     | None =>
         existingUsername <-
           match username with
           | Some name =>
               if truthy name then prisma.user_findUnique_username name
               else ret None
           | None => ret None
           end ;;
         match existingUsername with
         | Some _ =>
             ret (mkResponse 409 (createErrorResponse (now sys)
                    "Username already taken" AUTH_USERNAME_TAKEN))
         | None =>
             let hashedPassword :=
               bcrypt.hash (rs_password validatedData) (salt sys) in
             user <- prisma.user_create (now sys) (toLowerCase email)
                       hashedPassword (rs_firstName validatedData)
                       (rs_lastName validatedData) username ;;
             let verificationToken := randomBytes sys in
             prisma.emailVerification_create (u_id user) verificationToken
               (u_email user) (now sys + 24 * 60 * 60 * 1000) ;;;
             logLoginAttempt (now sys) (Some (u_id user)) req false
               (Some "REGISTRATION_PENDING_VERIFICATION") ;;;
             ret (mkResponse 201 (createSuccessResponse (now sys)
                    (JObj [("user", JObj [
                       ("id", JNum (Z.of_nat (u_id user)));
                       ("email", JStr (u_email user));
                       ("firstName", json_opt (u_firstName user));
                       ("lastName", json_opt (u_lastName user));
                       ("username", json_opt (u_username user));
                       ("isEmailVerified", JBool (u_isEmailVerified user));
                       ("createdAt", JNum (u_createdAt user))])])
                    "Registration successful. Please check your email to verify your account."
                    "REGISTRATION_SUCCESS"))
         end
     end)
    (internal_error (now sys)).

Definition login (env : Env) (sys : Sys) (req : Request)
    (parsed : option LoginSchema) : Handler :=
  handle
    (validatedData <- validation_request parsed ;;
     let email := ls_email validatedData in
     let password := ls_password validatedData in
     found <- prisma.user_findUnique_email (toLowerCase email) ;;
     match found with
     | None =>
         logLoginAttempt (now sys) None req false (Some "USER_NOT_FOUND") ;;;
         ret (mkResponse 401 (createErrorResponse (now sys)
                "Invalid credentials" AUTH_INVALID_CREDENTIALS))
     | Some user =>
         if negb (u_isActive user) then
           logLoginAttempt (now sys) (Some (u_id user)) req false
             (Some "ACCOUNT_DEACTIVATED") ;;;
           ret (mkResponse 403 (createErrorResponse (now sys)
                  "Account is deactivated" AUTH_ACCOUNT_DEACTIVATED))
         else if negb (bcrypt.compare password (u_password user)) then
           logLoginAttempt (now sys) (Some (u_id user)) req false
             (Some "INVALID_PASSWORD") ;;;
           ret (mkResponse 401 (createErrorResponse (now sys)
                  "Invalid credentials" AUTH_INVALID_CREDENTIALS))
         else
           prisma.user_update (u_id user)
             (mkUserData None None None None None None (Some (now sys))) ;;;
           tokens <- lift (generateTokens env (now sys) (u_id user)) ;;
           let expiresAt := now sys + days 7 in
           prisma.refreshToken_create (u_id user) (newRefreshToken tokens)
             expiresAt ;;;
           logLoginAttempt (now sys) (Some (u_id user)) req true None ;;;
           ret (mkResponse 200 (createSuccessResponse (now sys)
                  (JObj [
                     ("user", JObj [
                        ("id", JNum (Z.of_nat (u_id user)));
                        ("email", JStr (u_email user));
                        ("firstName", json_opt (u_firstName user));
                        ("lastName", json_opt (u_lastName user));
                        ("username", json_opt (u_username user));
                        ("avatar", json_opt (u_avatar user));
                        ("role", json_role (u_role user));
                        ("isEmailVerified", JBool (u_isEmailVerified user));
                        ("lastLoginAt", json_date (u_lastLoginAt user))]);
                     ("tokens", JObj [
                        ("accessToken", JToken (accessToken tokens));
                        ("refreshToken", JToken (newRefreshToken tokens))])])
                  "Login successful" "LOGIN_SUCCESS"))
     end)
    (internal_error (now sys)).

(** [!tokenRecord || tokenRecord.isRevoked || tokenRecord.expiresAt < new Date()] *)
Definition unusable (now : Z) (tokenRecord : option RefreshToken) : bool :=
  match tokenRecord with
  | None => true
  | Some r => rt_isRevoked r || (rt_expiresAt r <? now)
  end.

Definition refreshToken (env : Env) (sys : Sys) (parsed : option Token)
    : Handler :=
  handle
    (token <- validation_request parsed ;;
     match jwt.verify token (JWT_REFRESH_SECRET env) (now sys) with
     | inl _ =>
         ret (mkResponse 401 (createErrorResponse (now sys)
                "Invalid refresh token" AUTH_TOKEN_EXPIRED))
     | inr decoded =>
         tokenRecord <- prisma.refreshToken_findUnique_token token ;;
         match tokenRecord with
         | Some r =>
             if unusable (now sys) tokenRecord then
               ret (mkResponse 401 (createErrorResponse (now sys)
                      "Invalid or expired refresh token" AUTH_TOKEN_EXPIRED))
             else
               tokens <- lift (generateTokens env (now sys) (c_userId decoded)) ;;
               prisma.refreshToken_update_revoke (rt_id r) ;;;
               let expiresAt := now sys + days 7 in
               prisma.refreshToken_create (c_userId decoded)
                 (newRefreshToken tokens) expiresAt ;;;
               ret (mkResponse 200 (createSuccessResponse (now sys)
                      (JObj [("tokens", JObj [
                         ("accessToken", JToken (accessToken tokens));
                         ("refreshToken", JToken (newRefreshToken tokens))])])
                      "Tokens refreshed successfully" "TOKEN_REFRESH_SUCCESS"))
         | None =>
             ret (mkResponse 401 (createErrorResponse (now sys)
                    "Invalid or expired refresh token" AUTH_TOKEN_EXPIRED))
         end
     end)
    (internal_error (now sys)).

(** [req.body.refreshToken] is read without a schema: a token string or
    [undefined]. *)
Definition logout (sys : Sys) (bodyToken : option Token) : Handler :=
  handle
    (match bodyToken with
     | Some t =>
         if token_truthy t then
           prisma.refreshToken_updateMany_revoke
             (fun r => Token_eqb (rt_token r) t) ;;;
           ret tt
         else ret tt
     | None => ret tt
     end ;;;
     ret (mkResponse 200 (createSuccessResponse (now sys) JNull
            "Logged out successfully" "LOGOUT_SUCCESS")))
    (internal_error (now sys)).

Definition verifyEmail (sys : Sys) (token : string) : Handler :=
  handle
    (found <- prisma.emailVerification_findUnique_token token ;;
     match found with
     | None =>
         ret (mkResponse 400 (createErrorResponse (now sys)
                "Invalid verification token" AUTH_INVALID_TOKEN))
     | Some verification =>
         if ev_expiresAt verification <? now sys then
           ret (mkResponse 400 (createErrorResponse (now sys)
                  "Verification token has expired" AUTH_TOKEN_EXPIRED))
         else
           match ev_status verification with
           | VERIFIED =>
               ret (mkResponse 200 (createSuccessResponse (now sys) JNull
                      "Email already verified" "EMAIL_ALREADY_VERIFIED"))
           | PENDING =>
               prisma.user_update (ev_userId verification)
                 (mkUserData None None None None None (Some true) None) ;;;
               prisma.emailVerification_update_status (ev_id verification)
                 VERIFIED ;;;
               ret (mkResponse 200 (createSuccessResponse (now sys) JNull
                      "Email verified successfully" "EMAIL_VERIFICATION_SUCCESS"))
           end
     end)
    (internal_error (now sys)).

Definition json_user (user : AuthUser) : Json :=
  JObj [
    ("id", JNum (Z.of_nat (a_id user)));
    ("email", JStr (a_email user));
    ("firstName", json_opt (a_firstName user));
    ("lastName", json_opt (a_lastName user));
    ("username", json_opt (a_username user));
    ("avatar", json_opt (a_avatar user));
    ("role", json_role (a_role user));
    ("isEmailVerified", JBool (a_isEmailVerified user));
    ("isActive", JBool (a_isActive user));
    ("emailVerifiedAt", json_date (a_emailVerifiedAt user));
    ("lastLoginAt", json_date (a_lastLoginAt user));
    ("createdAt", JNum (a_createdAt user));
    ("updatedAt", JNum (a_updatedAt user))].

Definition getProfile (sys : Sys) (user : AuthUser) : Handler :=
  handle
    (ret (mkResponse 200 (createSuccessResponse (now sys)
            (JObj [("user", json_user user)])
            "Profile retrieved successfully" "PROFILE_SUCCESS")))
    (internal_error (now sys)).

Definition option_string_eqb (a b : option string) : bool :=
  match a, b with
  | Some x, Some y => String.eqb x y
  | None, None => true
  | _, _ => false
  end.

Definition updateProfile (sys : Sys) (user : AuthUser)
    (parsed : option UpdateProfileSchema) : Handler :=
  handle
    (validatedData <- validation_request parsed ;;
     let username := up_username validatedData in
     let continue (newUsername : option string) : M Response :=
       updatedUser <- prisma.user_update (a_id user)
         (mkUserData newUsername None (up_firstName validatedData)
            (up_lastName validatedData) (up_avatar validatedData) None None) ;;
       ret (mkResponse 200 (createSuccessResponse (now sys)
              (JObj [("user", JObj [
                 ("id", JNum (Z.of_nat (u_id updatedUser)));
                 ("email", JStr (u_email updatedUser));
                 ("firstName", json_opt (u_firstName updatedUser));
                 ("lastName", json_opt (u_lastName updatedUser));
                 ("username", json_opt (u_username updatedUser));
                 ("avatar", json_opt (u_avatar updatedUser));
                 ("role", json_role (u_role updatedUser));
                 ("isEmailVerified", JBool (u_isEmailVerified updatedUser));
                 ("lastLoginAt", json_date (u_lastLoginAt updatedUser));
                 ("updatedAt", JNum (u_updatedAt updatedUser))])])
              "Profile updated successfully" "PROFILE_UPDATE_SUCCESS")) in
     match username with
     | Some name =>
         if negb (option_string_eqb username (a_username user)) then
           existingUsername <- prisma.user_findUnique_username name ;;
           match existingUsername with
           | Some other =>
               if negb (Nat.eqb (u_id other) (a_id user)) then
                 ret (mkResponse 409 (createErrorResponse (now sys)
                        "Username already taken" AUTH_USERNAME_TAKEN))
               else continue (Some name)
           | None => continue (Some name)
           end
         else continue None
     | None => continue None
     end)
    (internal_error (now sys)).

Definition changePassword (sys : Sys) (user : AuthUser)
    (parsed : option ChangePasswordSchema) : Handler :=
  handle
    (validatedData <- validation_request parsed ;;
     found <- prisma.user_findUnique_id (a_id user) ;;
     match found with
     | None =>
         ret (mkResponse 404 (createErrorResponse (now sys)
                "User not found" AUTH_USER_NOT_FOUND))
     | Some stored =>
         if negb (bcrypt.compare (cp_currentPassword validatedData)
                    (u_password stored)) then
           ret (mkResponse 400 (createErrorResponse (now sys)
                  "Current password is incorrect" AUTH_INVALID_PASSWORD))
         else
           let hashedNewPassword :=
             bcrypt.hash (cp_newPassword validatedData) (salt sys) in
           prisma.user_update (a_id user)
             (mkUserData None (Some hashedNewPassword) None None None None None) ;;;
           prisma.refreshToken_updateMany_revoke
             (fun r => Nat.eqb (rt_userId r) (a_id user)) ;;;
           ret (mkResponse 200 (createSuccessResponse (now sys) JNull
                  "Password changed successfully. Please log in again."
                  "PASSWORD_CHANGE_SUCCESS"))
     end)
    (internal_error (now sys)).

(** ** middleware/index.ts: the request gate *)

Definition select_user (u : User) : AuthUser :=
  mkAuthUser (u_id u) (u_email u) (u_firstName u) (u_lastName u)
    (u_username u) (u_avatar u) (u_role u) (u_isEmailVerified u)
    (u_isActive u) (u_emailVerifiedAt u) (u_lastLoginAt u) (u_createdAt u)
    (u_updatedAt u).

(** The outcome of the middleware: a response, or [next()] with the user
    it attached to the request. *)
Inductive Gate :=
| Rejected (r : Response)
| Next (user : AuthUser).

Definition authMiddleware (env : Env) (sys : Sys) (req : Request)
    : Store -> Gate :=
  fun db =>
    match req_authorization req with
    | Some (Bearer token) =>
        match jwt.verify token (JWT_SECRET env) (now sys) with
        | inl (JwtThrown TokenExpiredError) =>
            Rejected (mkResponse 401 (createErrorResponse (now sys)
                        "Access token expired" AUTH_TOKEN_EXPIRED))
        | inl _ =>
            Rejected (mkResponse 401 (createErrorResponse (now sys)
                        "Invalid access token" AUTH_TOKEN_INVALID))
        | inr decoded =>
            match fst (prisma.user_findUnique_id (c_userId decoded) db) with
            | inr (Some user) =>
                if negb (u_isActive user) then
                  Rejected (mkResponse 403 (createErrorResponse (now sys)
                              "Account is deactivated" AUTH_ACCOUNT_DEACTIVATED))
                else Next (select_user user)
            | inr None =>
                Rejected (mkResponse 401 (createErrorResponse (now sys)
                            "User not found" AUTH_USER_NOT_FOUND))
            | inl _ =>
                Rejected (mkResponse 500 (createErrorResponse (now sys)
                            "Authentication error" INTERNAL_ERROR))
            end
        end
    | _ =>
        Rejected (mkResponse 401 (createErrorResponse (now sys)
                    "Access token required" AUTH_TOKEN_REQUIRED))
    end.

(** ** routes/auth.routes.ts *)

Inductive Call :=
| PostRegister (parsed : option RegisterSchema)
| PostLogin (parsed : option LoginSchema)
| PostRefreshToken (parsed : option Token)
| PostLogout (bodyToken : option Token)
| GetVerifyEmail (token : string)
| GetProfile
| PutProfile (parsed : option UpdateProfileSchema)
| PutChangePassword (parsed : option ChangePasswordSchema).

(** Routes below [router.use(auth.required)] run the handler only when
    the gate calls [next()]. *)
Definition protected (env : Env) (sys : Sys) (req : Request)
    (h : AuthUser -> Handler) : Handler :=
  fun db =>
    match authMiddleware env sys req db with
    | Rejected r => (r, db)
    | Next user => h user db
    end.

Definition router (env : Env) (sys : Sys) (req : Request) (call : Call)
    : Handler :=
  match call with
  | PostRegister parsed => register sys req parsed
  | PostLogin parsed => login env sys req parsed
  | PostRefreshToken parsed => refreshToken env sys parsed
  | PostLogout bodyToken => logout sys bodyToken
  | GetVerifyEmail token => verifyEmail sys token
  | GetProfile => protected env sys req (getProfile sys)
  | PutProfile parsed => protected env sys req (fun u => updateProfile sys u parsed)
  | PutChangePassword parsed =>
      protected env sys req (fun u => changePassword sys u parsed)
  end.

(** A request as the server sees it, and the store after a sequence of
    requests handled one after the other. *)
Record Incoming := mkIncoming {
  in_sys : Sys;
  in_req : Request;
  in_call : Call
}.

Definition serve (env : Env) (i : Incoming) : Handler :=
  router env (in_sys i) (in_req i) (in_call i).

Fixpoint serve_all (env : Env) (l : list Incoming) (db : Store) : Store :=
  match l with
  | [] => db
  | i :: rest => serve_all env rest (snd (serve env i db))
  end.

(** ** middleware/index.ts: the other gates *)

(** [req.user] after [optionalAuthMiddleware] has called [next()]: it
    never answers itself. *)
Definition optionalAuthMiddleware (env : Env) (sys : Sys) (req : Request)
    : Store -> option AuthUser :=
  fun db =>
    match req_authorization req with
    | Some (Bearer token) =>
        match jwt.verify token (JWT_SECRET env) (now sys) with
        | inl _ => None
        | inr decoded =>
            match fst (prisma.user_findUnique_id (c_userId decoded) db) with
            | inr (Some user) =>
                if u_isActive user then Some (select_user user) else None
            | _ => None
            end
        end
    | _ => None
    end.

(** The outcome of a gate that attaches nothing: a response, or
    [next()]. *)
Inductive Guard :=
| Denied (r : Response)
| Allowed.

(** [allowedRoles: string | string[]] *)
Inductive AllowedRoles :=
| OneRole (role : string)
| RoleList (roles : list string).

Definition role_name (r : Role) : string :=
  match r with
  | USER => "USER"
  | ADMIN => "ADMIN"
  | MODERATOR => "MODERATOR"
  end.

(** [Array.prototype.includes] on strings. *)
Definition includes (l : list string) (x : string) : bool :=
  existsb (String.eqb x) l.

Section Gates.

(** The values of [ERROR_CODES.AUTH_INSUFFICIENT_PERMISSIONS] and
    [ERROR_CODES.AUTH_EMAIL_NOT_VERIFIED]. *)
Variable AUTH_INSUFFICIENT_PERMISSIONS : ErrorCodeKey.
Variable AUTH_EMAIL_NOT_VERIFIED : ErrorCodeKey.

Definition requireRole (allowedRoles : AllowedRoles) (sys : Sys)
    (user : option AuthUser) : Guard :=
  match user with
  | None =>
      Denied (mkResponse 401 (createErrorResponse (now sys)
                "Authentication required" AUTH_TOKEN_REQUIRED))
  | Some u =>
      let roles :=
        match allowedRoles with
        | RoleList l => l
        | OneRole r => [r]
        end in
      if negb (includes roles (role_name (a_role u))) then
        Denied (mkResponse 403 (createErrorResponse (now sys)
                  "Insufficient permissions" AUTH_INSUFFICIENT_PERMISSIONS))
      else Allowed
  end.

Definition requireEmailVerification (sys : Sys) (user : option AuthUser)
    : Guard :=
  match user with
  | None =>
      Denied (mkResponse 401 (createErrorResponse (now sys)
                "Authentication required" AUTH_TOKEN_REQUIRED))
  | Some u =>
      if negb (a_isEmailVerified u) then
        Denied (mkResponse 403 (createErrorResponse (now sys)
                  "Email verification required" AUTH_EMAIL_NOT_VERIFIED))
      else Allowed
  end.

Definition requireAdmin := requireRole (RoleList ["ADMIN"]).

Definition requireModerator := requireRole (RoleList ["ADMIN"; "MODERATOR"]).

End Gates.

(** ** utils/response.ts: pagination *)

(** A JavaScript number that came out of a division of integers. *)
Inductive JsNumber :=
| Num (z : Z)
| PosInfinity
| NegInfinity
| NaN.

(** [Math.ceil(total / limit)] on integers. *)
Definition ceil_div (total limit : Z) : JsNumber :=
  if limit =? 0 then
    if 0 <? total then PosInfinity
    else if total <? 0 then NegInfinity
    else NaN
  else Num (- ((- total) / limit)).

(** [page < totalPages] *)
Definition js_lt (page : Z) (n : JsNumber) : bool :=
  match n with
  | Num z => page <? z
  | PosInfinity => true
  | NegInfinity => false
  | NaN => false
  end.

Record Pagination := mkPagination {
  pg_total : Z;
  pg_page : Z;
  pg_limit : Z;
  pg_totalPages : JsNumber;
  pg_hasNext : bool;
  pg_hasPrev : bool
}.

Record PaginatedResponse := mkPaginatedResponse {
  p_success : bool;
  p_message : option string;
  p_data : list Json;
  p_pagination : Pagination;
  p_timestamp : Z
}.

Definition createPaginatedResponse (now : Z) (data : list Json)
    (total page limit : Z) (message : option string) : PaginatedResponse :=
  let totalPages := ceil_div total limit in
  mkPaginatedResponse true message data
    (mkPagination total page limit totalPages (js_lt page totalPages)
       (1 <? page))
    now.

(** * Vocabulary of the properties *)

(** The row a verification token names, as [findUnique] returns it. *)
Definition stored_verification (token : string) (db : Store)
    : option EmailVerification :=
  find (fun v => String.eqb (ev_token v) token) (emailVerifications db).

(** The row a refresh-token string names. *)
Definition stored_refreshToken (token : Token) (db : Store)
    : option RefreshToken :=
  find (fun r => Token_eqb (rt_token r) token) (refreshTokens db).

(** The user an e-mail address resolves to. *)
Definition user_by_email (email : string) (db : Store) : option User :=
  find (fun u => String.eqb (u_email u) (toLowerCase email)) (users db).

(** The token string names a row that is marked revoked. *)
Definition revoked_token (token : Token) (db : Store) : Prop :=
  exists r, stored_refreshToken token db = Some r /\ rt_isRevoked r = true.

(** A handler step leaves [P] true of the store. *)
Definition preserves {A} (P : Store -> Prop) (m : M A) : Prop :=
  forall db, P db -> P (snd (m db)).

(** The refresh endpoint's refusal, whichever of its two messages it
    carries. *)
Definition refused_401 (r : Response) : Prop :=
  status r = 401 /\ success (body r) = false /\
  code (body r) = Some (ERROR_CODES AUTH_TOKEN_EXPIRED).

(** The request appended exactly one audit row, for that user, with that
    outcome. *)
Definition audit_appended (db db' : Store) (uid : UserId) (ok : bool)
    (why : option string) : Prop :=
  exists l,
    loginLogs db' = loginLogs db ++ [l] /\
    ll_userId l = uid /\ ll_isSuccess l = ok /\ ll_failReason l = why.

(** The store once the redeemed row [r] is marked revoked. *)
Definition redeemed (db : Store) (r : RefreshToken) : Store :=
  mkStore (users db) (loginLogs db) (emailVerifications db)
    (map (fun x => if Nat.eqb (rt_id x) (rt_id r) then prisma.revoke x else x)
       (refreshTokens db))
    (nextId db).

(** The store after a rotation: the redeemed row [r] is marked revoked
    and the new token is appended with seven days to live. *)
Definition rotated (db : Store) (r : RefreshToken) (uid : UserId)
    (fresh : Token) (t : Z) : Store :=
  mkStore (users db) (loginLogs db) (emailVerifications db)
    (map (fun x => if Nat.eqb (rt_id x) (rt_id r) then prisma.revoke x else x)
       (refreshTokens db)
     ++ [mkRefreshToken (nextId db) uid fresh false (t + days 7)])
    (S (nextId db)).

(** The body of the refresh endpoint's 200. *)
Definition refreshed (t : Z) (tokens : TokenPair) : Response :=
  mkResponse 200 (createSuccessResponse t
    (JObj [("tokens", JObj [
       ("accessToken", JToken (accessToken tokens));
       ("refreshToken", JToken (newRefreshToken tokens))])])
    "Tokens refreshed successfully" "TOKEN_REFRESH_SUCCESS").

(** [data: { isEmailVerified: true }] *)
Definition verified_data : UserData :=
  mkUserData None None None None None (Some true) None.

(** What the database guarantees of every store it can be in: the unique
    columns hold no duplicates, identifiers are below the next one to be
    handed out, and a verification row references a user. *)
Record wf_store (db : Store) : Prop := mk_wf {
  wf_emails : NoDup (map u_email (users db));
  wf_tokens : NoDup (map rt_token (refreshTokens db));
  wf_ev_ids : NoDup (map ev_id (emailVerifications db));
  wf_ev_fresh :
    Forall (fun v => (ev_id v < nextId db)%nat) (emailVerifications db);
  wf_ev_user :
    Forall (fun v => prisma.user_exists (ev_userId v) db = true)
      (emailVerifications db)
}.

Fixpoint nodupb {A} (eqb : A -> A -> bool) (l : list A) : bool :=
  match l with
  | [] => true
  | x :: rest => negb (existsb (eqb x) rest) && nodupb eqb rest
  end.

(** A decision procedure for [wf_store]. *)
Definition wf_storeb (db : Store) : bool :=
  nodupb String.eqb (map u_email (users db))
  && nodupb Token_eqb (map rt_token (refreshTokens db))
  && nodupb Nat.eqb (map ev_id (emailVerifications db))
  && forallb (fun v => Nat.ltb (ev_id v) (nextId db)) (emailVerifications db)
  && forallb (fun v => prisma.user_exists (ev_userId v) db)
       (emailVerifications db).

(** ** A sample deployment and a few requests *)

Definition sample_env : Env :=
  mkEnv (Some "access-secret-access-secret-0123")
    (Some "refresh-secret-refresh-secret-01") None None.

Definition sample_request : Request :=
  mkRequest (Some "203.0.113.7") None (Some "curl/8.5") None.

Definition at_time (t : Z) : Sys := mkSys t "5f2a9c" "k3".

Definition a_signup_again : RegisterSchema :=
  mkRegisterSchema "A@X.com" "Passw0rd1" None None None.

Definition a_login : LoginSchema := mkLoginSchema "a@x.com" "Passw0rd1".

(** The row of the account the sample requests create. *)
Definition a_row : User :=
  mkUser 0%nat "a@x.com" None (mkPwHash "Passw0rd1" "k3") None None None USER
    true false None None 1000 1000.

(** [register("a@x.com", "Passw0rd1")] on the empty store. *)
Definition a_registered : Store :=
  snd (register (at_time 1000) sample_request
         (Some (mkRegisterSchema "a@x.com" "Passw0rd1" None None None))
         empty_store).

(** ... followed by a successful login two seconds later. *)
Definition a_logged_in : Store :=
  snd (login sample_env (at_time 3000) sample_request (Some a_login)
         a_registered).

(** The refresh token that login stored. *)
Definition a_refresh_0 : Token :=
  Signed (mkClaims 0%nat None None None None (Some 3) None)
    "refresh-secret-refresh-secret-01".

(** The refresh token a rotation at second 5 issues. *)
Definition a_refresh_1 : Token :=
  Signed (mkClaims 0%nat None None None None (Some 5) None)
    "refresh-secret-refresh-secret-01".


(** The store after the account's e-mail was verified at 2 s. *)
Definition a_verified : Store :=
  snd (verifyEmail (at_time 2000) "5f2a9c" a_registered).

(** The verification row of the sample account. *)
Definition a_verification : EmailVerification :=
  mkEmailVerification 1%nat 0%nat "5f2a9c" "a@x.com" PENDING 86401000.

(** The refresh-token row that login stored. *)
Definition a_session_0 : RefreshToken :=
  mkRefreshToken 3%nat 0%nat a_refresh_0 false 604803000.

(** An e-mail verification JWT for the sample account, issued at 1 s. *)
Definition a_verify_jwt : Token :=
  Signed (mkClaims 0%nat (Some "a@x.com") None None (Some "email_verify")
            (Some 1) (Some 86401))
    "access-secret-access-secret-0123".

(** The access token that login handed out at 3 s. *)
Definition a_access_0 : Token :=
  Signed (mkClaims 0%nat None None None None (Some 3) None)
    "access-secret-access-secret-0123".

Definition bearer (t : Token) : Request :=
  mkRequest (Some "203.0.113.7") None (Some "curl/8.5") (Some (Bearer t)).

(** The same account, deactivated. *)
Definition deactivate (u : User) : User :=
  mkUser (u_id u) (u_email u) (u_username u) (u_password u) (u_firstName u)
    (u_lastName u) (u_avatar u) (u_role u) false (u_isEmailVerified u)
    (u_emailVerifiedAt u) (u_lastLoginAt u) (u_createdAt u) (u_updatedAt u).

Definition a_deactivated : Store :=
  mkStore (map deactivate (users a_registered)) (loginLogs a_registered)
    (emailVerifications a_registered) (refreshTokens a_registered)
    (nextId a_registered).

Definition a_user : AuthUser :=
  mkAuthUser 0%nat "a@x.com" None None None None USER false true None
    (Some 3000) 1000 1000.

(** ** Vocabulary of the further properties *)

(** A string of decimal digits. *)
Fixpoint all_digits (s : string) : bool :=
  match s with
  | EmptyString => true
  | String c r =>
      match digit_of c with Some _ => all_digits r | None => false end
  end.

(** The factor of a one-letter unit of [JWT_EXPIRES_IN], in seconds. *)
Definition unit_seconds (u : ascii) : option Z :=
  if Ascii.eqb u "s" then Some 1
  else if Ascii.eqb u "m" then Some 60
  else if Ascii.eqb u "h" then Some 3600
  else if Ascii.eqb u "d" then Some 86400
  else None.

(** A password-reset JWT for the sample account, issued at 1 s. *)
Definition a_reset_jwt : Token :=
  Signed (mkClaims 0%nat (Some "a@x.com") None None (Some "password_reset")
            (Some 1) (Some 3601))
    "access-secret-access-secret-0123".

(** The sample deployment with a two-hour, and with a bare-number,
    access-token lifetime. *)
Definition env_2h : Env :=
  mkEnv (Some "access-secret-access-secret-0123")
    (Some "refresh-secret-refresh-secret-01") (Some "2h") None.

Definition env_3600 : Env :=
  mkEnv (Some "access-secret-access-secret-0123")
    (Some "refresh-secret-refresh-secret-01") (Some "3600") None.

(** An administrator and a moderator, as the gate would attach them. *)
Definition an_admin : AuthUser :=
  mkAuthUser 7%nat "root@x.com" None None None None ADMIN true true None None
    1000 1000.

Definition a_moderator : AuthUser :=
  mkAuthUser 8%nat "mod@x.com" None None None None MODERATOR true true None
    None 1000 1000.

(** The rows a successful registration writes: the user, the pending
    verification and the audit entry, with three consecutive ids. *)
Definition registered_user (sys : Sys) (data : RegisterSchema) (db : Store)
    : User :=
  mkUser (nextId db) (toLowerCase (rs_email data)) (rs_username data)
    (bcrypt.hash (rs_password data) (salt sys)) (rs_firstName data)
    (rs_lastName data) None USER true false None None (now sys) (now sys).

Definition registered (sys : Sys) (req : Request) (data : RegisterSchema)
    (db : Store) : Store :=
  mkStore
    (users db ++ [registered_user sys data db])
    (loginLogs db ++
       [mkLoginLog (S (S (nextId db))) (nextId db) "EMAIL" (clientIP req)
          (env_or (req_userAgent req) "unknown") false
          (Some "REGISTRATION_PENDING_VERIFICATION") (now sys)])
    (emailVerifications db ++
       [mkEmailVerification (S (nextId db)) (nextId db) (randomBytes sys)
          (toLowerCase (rs_email data)) PENDING
          (now sys + 24 * 60 * 60 * 1000)])
    (refreshTokens db)
    (S (S (S (nextId db)))).


(** Bob wants Alice's user name. *)
Definition a_named : Store :=
  snd (register (at_time 1000) sample_request
         (Some (mkRegisterSchema "a@x.com" "Passw0rd1" None None (Some "alice")))
         empty_store).

Definition a_named_row : User :=
  mkUser 0%nat "a@x.com" (Some "alice") (mkPwHash "Passw0rd1" "k3") None None
    None USER true false None None 1000 1000.

(** Alice and Bob registered, Alice under the user name "alice". *)
Definition ab_registered : Store :=
  snd (register (at_time 1500) sample_request
         (Some (mkRegisterSchema "b@x.com" "Passw0rd2" None None None))
         a_named).

Definition b_user : AuthUser :=
  mkAuthUser 3%nat "b@x.com" None None None None USER false true None None
    1500 1500.

(** A login, a profile update and a password change of the sample
    account. *)
Definition a_busy_day : list Incoming :=
  [ mkIncoming (at_time 3000) sample_request (PostLogin (Some a_login));
    mkIncoming (at_time 4000) (bearer a_access_0)
      (PutProfile (Some (mkUpdateProfileSchema (Some "Al") None None None)));
    mkIncoming (at_time 5000) (bearer a_access_0)
      (PutChangePassword
         (Some (mkChangePasswordSchema "Passw0rd1" "Passw0rd9"))) ].

(** The login log of [db] is [before] followed by further rows. *)
Definition log_extends (before : list LoginLog) (db : Store) : Prop :=
  exists suffix, loginLogs db = before ++ suffix.

(** The account [id] exists in [db] with the identity columns of [u]. *)
Definition same_identity (id : UserId) (u : User) (db : Store) : Prop :=
  exists u',
    find (fun x => Nat.eqb (u_id x) id) (users db) = Some u' /\
    u_email u' = u_email u /\ u_role u' = u_role u /\
    u_isActive u' = u_isActive u /\ u_createdAt u' = u_createdAt u.

(** * Properties *)

(** Runs the monadic plumbing of a handler and its reads of the store. *)
Ltac run :=
  cbv beta iota zeta delta
    [handle bind ret throw lift try_catch validation_request
     prisma.user_findUnique_email prisma.user_findUnique_username
     prisma.user_findUnique_id prisma.emailVerification_findUnique_token
     prisma.refreshToken_findUnique_token fst snd negb].

(** ** Token strings *)

Lemma Token_eqb_eq (a b : Token) : Token_eqb a b = true <-> a = b.
Proof.
  unfold Token_eqb. destruct (Token_eq_dec a b); split; congruence.
Qed.

Lemma Token_eqb_refl (a : Token) : Token_eqb a a = true.
Proof. apply Token_eqb_eq. reflexivity. Qed.


(** ** Invariants of handler steps *)

Section Preserves.

Context {A B : Type} (P : Store -> Prop).

Lemma preserves_ret (a : A) : preserves P (ret a).
Proof. intros db H. exact H. Qed.

Lemma preserves_throw (e : Thrown) : preserves P (@throw A e).
Proof. intros db H. exact H. Qed.

Lemma preserves_lift (r : Thrown + A) : preserves P (lift r).
Proof. intros db H. exact H. Qed.

Lemma preserves_read (m : M A) :
  (forall db, snd (m db) = db) -> preserves P m.
Proof. intros Hm db H. rewrite Hm. exact H. Qed.

Lemma preserves_bind (m : M A) (k : A -> M B) :
  preserves P m -> (forall a, preserves P (k a)) -> preserves P (bind m k).
Proof.
  intros Hm Hk db H. unfold bind.
  specialize (Hm db H). destruct (m db) as [[e | a] db']; simpl in *.
  - exact Hm.
  - apply Hk. exact Hm.
Qed.

Lemma preserves_try_catch (m : M A) (h : Thrown -> M A) :
  preserves P m -> (forall e, preserves P (h e)) ->
  preserves P (try_catch m h).
Proof.
  intros Hm Hh db H. unfold try_catch.
  specialize (Hm db H). destruct (m db) as [[e | a] db']; simpl in *.
  - apply Hh. exact Hm.
  - exact Hm.
Qed.

Lemma preserves_validation (parsed : option A) :
  preserves P (validation_request parsed).
Proof. destruct parsed; intros db H; exact H. Qed.

End Preserves.

Lemma handle_preserves (P : Store -> Prop) (m : M Response) (r : Response) :
  preserves P m -> forall db, P db -> P (snd (handle m r db)).
Proof.
  intros Hm db H. unfold handle. specialize (Hm db H).
  destruct (m db) as [[e | a] db']; exact Hm.
Qed.

(** An invariant that every write of the Prisma client keeps is kept by
    every route, hence by any sequence of requests. *)
Section Invariant.

Variable P : Store -> Prop.

Hypothesis P_user_create :
  forall t email pw fn ln un,
    preserves P (prisma.user_create t email pw fn ln un).
Hypothesis P_user_update :
  forall id d, preserves P (prisma.user_update id d).
Hypothesis P_loginLog_create :
  forall t uid ty ip ua ok why,
    preserves P (prisma.loginLog_create t uid ty ip ua ok why).
Hypothesis P_emailVerification_create :
  forall uid tok email exp,
    preserves P (prisma.emailVerification_create uid tok email exp).
Hypothesis P_emailVerification_update_status :
  forall id s, preserves P (prisma.emailVerification_update_status id s).
Hypothesis P_refreshToken_create :
  forall uid tok exp, preserves P (prisma.refreshToken_create uid tok exp).
Hypothesis P_refreshToken_update_revoke :
  forall id, preserves P (prisma.refreshToken_update_revoke id).
Hypothesis P_refreshToken_updateMany_revoke :
  forall w, preserves P (prisma.refreshToken_updateMany_revoke w).

Ltac step :=
  first
    [ apply preserves_ret
    | apply preserves_throw
    | apply preserves_lift
    | apply preserves_validation
    | apply P_user_create
    | apply P_user_update
    | apply P_loginLog_create
    | apply P_emailVerification_create
    | apply P_emailVerification_update_status
    | apply P_refreshToken_create
    | apply P_refreshToken_update_revoke
    | apply P_refreshToken_updateMany_revoke
    | (apply preserves_read; intros; reflexivity)
    | (apply preserves_bind; [ | intros ])
    | (apply preserves_try_catch; [ | intros ])
    | match goal with
      | |- preserves _ (match ?x with _ => _ end) => destruct x
      | |- preserves _ (if ?c then _ else _) => destruct c
      end ].

Lemma logLoginAttempt_preserves t uid req ok why :
  preserves P (logLoginAttempt t uid req ok why).
Proof. unfold logLoginAttempt. repeat step. Qed.

Ltac steps := repeat (step || apply logLoginAttempt_preserves).

Lemma register_preserves sys req parsed db :
  P db -> P (snd (register sys req parsed db)).
Proof. apply handle_preserves. cbv zeta. steps. Qed.

Lemma login_preserves env sys req parsed db :
  P db -> P (snd (login env sys req parsed db)).
Proof. apply handle_preserves. cbv zeta. steps. Qed.

Lemma refreshToken_preserves env sys parsed db :
  P db -> P (snd (refreshToken env sys parsed db)).
Proof. apply handle_preserves. cbv zeta. steps. Qed.

Lemma logout_preserves sys tok db :
  P db -> P (snd (logout sys tok db)).
Proof. apply handle_preserves. steps. Qed.

Lemma verifyEmail_preserves sys tok db :
  P db -> P (snd (verifyEmail sys tok db)).
Proof. apply handle_preserves. steps. Qed.

Lemma getProfile_preserves sys u db :
  P db -> P (snd (getProfile sys u db)).
Proof. apply handle_preserves. steps. Qed.

Lemma updateProfile_preserves sys u parsed db :
  P db -> P (snd (updateProfile sys u parsed db)).
Proof. apply handle_preserves. cbv zeta. steps. Qed.

Lemma changePassword_preserves sys u parsed db :
  P db -> P (snd (changePassword sys u parsed db)).
Proof. apply handle_preserves. cbv zeta. steps. Qed.

Lemma protected_preserves env sys req h db :
  (forall u db', P db' -> P (snd (h u db'))) ->
  P db -> P (snd (protected env sys req h db)).
Proof.
  intros Hh H. unfold protected.
  destruct (authMiddleware env sys req db); simpl; auto.
Qed.

Lemma serve_preserves env i db : P db -> P (snd (serve env i db)).
Proof.
  unfold serve, router. destruct (in_call i).
  - apply register_preserves.
  - apply login_preserves.
  - apply refreshToken_preserves.
  - apply logout_preserves.
  - apply verifyEmail_preserves.
  - apply protected_preserves. intros. now apply getProfile_preserves.
  - apply protected_preserves. intros. now apply updateProfile_preserves.
  - apply protected_preserves. intros. now apply changePassword_preserves.
Qed.

Lemma serve_all_preserves env l :
  forall db, P db -> P (serve_all env l db).
Proof.
  induction l as [| i rest IH]; intros db H; simpl.
  - exact H.
  - apply IH. apply serve_preserves. exact H.
Qed.

End Invariant.

(** ** Lists of rows *)

Lemma find_app_some {A} (f : A -> bool) (l l' : list A) (x : A) :
  find f l = Some x -> find f (l ++ l') = Some x.
Proof.
  induction l as [| a l IH]; simpl; [discriminate |].
  destruct (f a); auto.
Qed.

Lemma find_app_none {A} (f : A -> bool) (l l' : list A) :
  find f l = None -> find f (l ++ l') = find f l'.
Proof.
  induction l as [| a l IH]; simpl; [reflexivity |].
  destruct (f a); [discriminate | auto].
Qed.

Lemma find_map_same {A} (f : A -> bool) (g : A -> A) (l : list A) :
  (forall x, f (g x) = f x) ->
  find f (map g l) = option_map g (find f l).
Proof.
  intros Hg. induction l as [| a l IH]; simpl; [reflexivity |].
  rewrite Hg. destruct (f a); auto.
Qed.

Lemma existsb_find {A} (f : A -> bool) (l : list A) :
  existsb f l = match find f l with Some _ => true | None => false end.
Proof.
  induction l as [| a l IH]; simpl; [reflexivity |].
  destruct (f a); auto.
Qed.

Lemma existsb_map_same {A} (f : A -> bool) (g : A -> A) (l : list A) :
  (forall x, f (g x) = f x) -> existsb f (map g l) = existsb f l.
Proof.
  intros Hg. induction l as [| a l IH]; simpl; [reflexivity |].
  rewrite Hg, IH. reflexivity.
Qed.

Lemma revoke_token (r : RefreshToken) :
  rt_token (prisma.revoke r) = rt_token r.
Proof. reflexivity. Qed.


Lemma map_token_revoke (w : RefreshToken -> bool) (l : list RefreshToken) :
  map rt_token (map (fun x => if w x then prisma.revoke x else x) l)
  = map rt_token l.
Proof.
  rewrite map_map. apply map_ext. intros a. destruct (w a); reflexivity.
Qed.

Lemma apply_data_id (d : UserData) (u : User) : u_id (apply_data d u) = u_id u.
Proof. reflexivity. Qed.

Lemma apply_data_email (d : UserData) (u : User) :
  u_email (apply_data d u) = u_email u.
Proof. reflexivity. Qed.

(** ** A revoked refresh token stays revoked *)

Section Revoked.

Variable token : Token.

Lemma revoked_after_map (w : RefreshToken -> bool) (l : list RefreshToken) :
  (exists r, find (fun r => Token_eqb (rt_token r) token) l = Some r
             /\ rt_isRevoked r = true) ->
  exists r,
    find (fun r => Token_eqb (rt_token r) token)
      (map (fun x => if w x then prisma.revoke x else x) l) = Some r
    /\ rt_isRevoked r = true.
Proof.
  intros [r [Hf Hr]].
  rewrite find_map_same, Hf by (intros x; destruct (w x); reflexivity).
  simpl. eexists; split; [reflexivity |].
  destruct (w r); [reflexivity | exact Hr].
Qed.

Ltac other_table op :=
  intros db H; unfold op;
  repeat match goal with
         | |- context [if ?c then _ else _] => destruct c
         | |- context [match ?x with _ => _ end] => destruct x
         end; exact H.

Lemma revoked_user_create t email pw fn ln un :
  preserves (revoked_token token) (prisma.user_create t email pw fn ln un).
Proof. other_table prisma.user_create. Qed.

Lemma revoked_user_update id d :
  preserves (revoked_token token) (prisma.user_update id d).
Proof. other_table prisma.user_update. Qed.

Lemma revoked_loginLog_create t uid ty ip ua ok why :
  preserves (revoked_token token)
    (prisma.loginLog_create t uid ty ip ua ok why).
Proof. other_table prisma.loginLog_create. Qed.

Lemma revoked_emailVerification_create uid tok email exp :
  preserves (revoked_token token)
    (prisma.emailVerification_create uid tok email exp).
Proof. other_table prisma.emailVerification_create. Qed.

Lemma revoked_emailVerification_update_status id s :
  preserves (revoked_token token)
    (prisma.emailVerification_update_status id s).
Proof. other_table prisma.emailVerification_update_status. Qed.

Lemma revoked_refreshToken_create uid tok exp :
  preserves (revoked_token token) (prisma.refreshToken_create uid tok exp).
Proof.
  intros db [r [Hf Hr]]. unfold prisma.refreshToken_create.
  destruct (existsb _ _); [exists r; auto |].
  destruct (negb _); [exists r; auto |].
  exists r. split; [| exact Hr].
  unfold stored_refreshToken in *. simpl. apply find_app_some. exact Hf.
Qed.

Lemma revoked_refreshToken_update_revoke id :
  preserves (revoked_token token) (prisma.refreshToken_update_revoke id).
Proof.
  intros db H. unfold prisma.refreshToken_update_revoke.
  destruct (find _ _); [| exact H].
  unfold revoked_token, stored_refreshToken in *. simpl.
  apply revoked_after_map with (w := fun x => Nat.eqb (rt_id x) id). exact H.
Qed.

Lemma revoked_refreshToken_updateMany_revoke w :
  preserves (revoked_token token) (prisma.refreshToken_updateMany_revoke w).
Proof.
  intros db H. unfold prisma.refreshToken_updateMany_revoke.
  unfold revoked_token, stored_refreshToken in *. simpl.
  apply revoked_after_map. exact H.
Qed.

(** No sequence of requests brings a revoked token back. *)
Lemma revoked_forever env (l : list Incoming) (db : Store) :
  revoked_token token db -> revoked_token token (serve_all env l db).
Proof.
  apply serve_all_preserves.
  - apply revoked_user_create.
  - apply revoked_user_update.
  - apply revoked_loginLog_create.
  - apply revoked_emailVerification_create.
  - apply revoked_emailVerification_update_status.
  - apply revoked_refreshToken_create.
  - apply revoked_refreshToken_update_revoke.
  - apply revoked_refreshToken_updateMany_revoke.
Qed.

End Revoked.

(** The refresh endpoint refuses a revoked token, and writes nothing. *)
Lemma refreshToken_revoked_refused env sys token db :
  revoked_token token db ->
  refused_401 (fst (refreshToken env sys (Some token) db))
  /\ snd (refreshToken env sys (Some token) db) = db.
Proof.
  intros [r [Hf Hr]]. unfold stored_refreshToken in Hf.
  unfold refreshToken. run.
  destruct (jwt.verify token (JWT_REFRESH_SECRET env) (now sys)).
  - repeat split.
  - rewrite Hf. unfold unusable. rewrite Hr. repeat split.
Qed.

(** ** Well-formed stores *)

Lemma NoDup_snoc {A} (l : list A) (x : A) :
  NoDup l -> ~ In x l -> NoDup (l ++ [x]).
Proof.
  intros Hl Hx. induction Hl as [| a l Ha Hl IH]; simpl.
  - constructor; [intros [] | constructor].
  - constructor.
    + rewrite in_app_iff. simpl. intros [H | [H | []]]; [auto |].
      subst. apply Hx. left. reflexivity.
    + apply IH. intros H. apply Hx. right. exact H.
Qed.

Lemma not_in_map_existsb {A K} (proj : A -> K) (eqb : K -> K -> bool)
    (k : K) (l : list A) :
  (forall a b, eqb a b = true <-> a = b) ->
  existsb (fun x => eqb (proj x) k) l = false -> ~ In k (map proj l).
Proof.
  intros Heq Hex Hin. apply in_map_iff in Hin. destruct Hin as [x [Hx Hin]].
  assert (existsb (fun x => eqb (proj x) k) l = true) as Ht.
  { apply existsb_exists. exists x. split; [exact Hin | now apply Heq]. }
  congruence.
Qed.

Lemma Forall_map_same {A} (P : A -> Prop) (g : A -> A) (l : list A) :
  (forall x, P x -> P (g x)) -> Forall P l -> Forall P (map g l).
Proof.
  intros Hg Hl. induction Hl; simpl; constructor; auto.
Qed.

Lemma nodupb_sound {A} (eqb : A -> A -> bool) (l : list A) :
  (forall a b, eqb a b = true <-> a = b) -> nodupb eqb l = true -> NoDup l.
Proof.
  intros Heq. induction l as [| a l IH]; simpl; intros H.
  - constructor.
  - apply andb_prop in H. destruct H as [Ha Hl]. constructor; [| auto].
    intros Hin. apply negb_true_iff in Ha.
    assert (existsb (eqb a) l = true) as Ht.
    { apply existsb_exists. exists a. split; [exact Hin | now apply Heq]. }
    congruence.
Qed.

Lemma user_exists_users (id : UserId) (db db' : Store) :
  users db' = users db -> prisma.user_exists id db' = prisma.user_exists id db.
Proof. unfold prisma.user_exists. intros ->. reflexivity. Qed.

(** The decision procedure is sound. *)
Lemma wf_storeb_sound (db : Store) : wf_storeb db = true -> wf_store db.
Proof.
  unfold wf_storeb. intros H.
  apply andb_prop in H. destruct H as [H H5].
  apply andb_prop in H. destruct H as [H H4].
  apply andb_prop in H. destruct H as [H H3].
  apply andb_prop in H. destruct H as [H1 H2].
  constructor.
  - eapply nodupb_sound; [apply String.eqb_eq | exact H1].
  - eapply nodupb_sound; [apply Token_eqb_eq | exact H2].
  - eapply nodupb_sound; [apply Nat.eqb_eq | exact H3].
  - apply Forall_forall. intros v Hv.
    apply Nat.ltb_lt. rewrite forallb_forall in H4. apply H4. exact Hv.
  - apply Forall_forall. intros v Hv.
    rewrite forallb_forall in H5. apply H5. exact Hv.
Qed.

Lemma wf_empty : wf_store empty_store.
Proof. apply wf_storeb_sound. reflexivity. Qed.

Lemma wf_user_create t email pw fn ln un :
  preserves wf_store (prisma.user_create t email pw fn ln un).
Proof.
  intros db [He Ht Hi Hf Hu]. unfold prisma.user_create.
  destruct (_ || _) eqn:E; simpl; [constructor; assumption |].
  apply orb_false_iff in E. destruct E as [E _].
  constructor; simpl; try assumption.
  - rewrite map_app. simpl. apply NoDup_snoc; [exact He |].
    eapply not_in_map_existsb; [apply String.eqb_eq | exact E].
  - eapply Forall_impl; [| exact Hf]. simpl. intros; lia.
  - eapply Forall_impl; [| exact Hu]. simpl. intros v Hv.
    unfold prisma.user_exists in *. simpl. rewrite existsb_app, Hv.
    reflexivity.
Qed.

Lemma wf_user_update id d : preserves wf_store (prisma.user_update id d).
Proof.
  intros db [He Ht Hi Hf Hu]. unfold prisma.user_update.
  destruct (find _ _); simpl; [| constructor; assumption].
  destruct (prisma.username_taken _ _); simpl; [constructor; assumption |].
  constructor; simpl; try assumption.
  - rewrite map_map.
    erewrite map_ext; [exact He |].
    intros a. simpl. destruct (Nat.eqb (u_id a) id); reflexivity.
  - eapply Forall_impl; [| exact Hu]. simpl. intros v Hv.
    unfold prisma.user_exists in *. simpl.
    rewrite existsb_map_same; [exact Hv |].
    intros x. destruct (Nat.eqb (u_id x) id); reflexivity.
Qed.

Lemma wf_loginLog_create t uid ty ip ua ok why :
  preserves wf_store (prisma.loginLog_create t uid ty ip ua ok why).
Proof.
  intros db [He Ht Hi Hf Hu]. unfold prisma.loginLog_create.
  destruct (negb _); simpl; constructor; simpl; try assumption.
  eapply Forall_impl; [| exact Hf]. simpl. intros; lia.
Qed.

Lemma wf_emailVerification_create uid tok email exp :
  preserves wf_store (prisma.emailVerification_create uid tok email exp).
Proof.
  intros db [He Ht Hi Hf Hu]. unfold prisma.emailVerification_create.
  destruct (existsb _ _); simpl; [constructor; assumption |].
  destruct (prisma.user_exists uid db) eqn:E; simpl;
    [| constructor; assumption].
  constructor; simpl; try assumption.
  - rewrite map_app. simpl. apply NoDup_snoc; [exact Hi |].
    intros Hin. apply in_map_iff in Hin. destruct Hin as [v [Hv Hin]].
    rewrite Forall_forall in Hf. specialize (Hf v Hin). lia.
  - apply Forall_app. split.
    + eapply Forall_impl; [| exact Hf]. simpl. intros; lia.
    + constructor; [simpl; lia | constructor].
  - apply Forall_app. split.
    + exact Hu.
    + constructor; [exact E | constructor].
Qed.

Lemma wf_emailVerification_update_status id s :
  preserves wf_store (prisma.emailVerification_update_status id s).
Proof.
  intros db [He Ht Hi Hf Hu]. unfold prisma.emailVerification_update_status.
  destruct (find _ _); simpl; [| constructor; assumption].
  constructor; simpl; try assumption.
  - rewrite map_map.
    erewrite map_ext; [exact Hi |].
    intros a. simpl. destruct (Nat.eqb (ev_id a) id); reflexivity.
  - apply Forall_map_same; [| exact Hf].
    intros x Hx. destruct (Nat.eqb (ev_id x) id); exact Hx.
  - apply Forall_map_same; [| exact Hu].
    intros x Hx. destruct (Nat.eqb (ev_id x) id); exact Hx.
Qed.

Lemma wf_refreshToken_create uid tok exp :
  preserves wf_store (prisma.refreshToken_create uid tok exp).
Proof.
  intros db [He Ht Hi Hf Hu]. unfold prisma.refreshToken_create.
  destruct (existsb _ _) eqn:E; simpl; [constructor; assumption |].
  destruct (negb _); simpl; [constructor; assumption |].
  constructor; simpl; try assumption.
  - rewrite map_app. simpl. apply NoDup_snoc; [exact Ht |].
    eapply not_in_map_existsb; [apply Token_eqb_eq | exact E].
  - eapply Forall_impl; [| exact Hf]. simpl. intros; lia.
Qed.

Lemma wf_refreshToken_update_revoke id :
  preserves wf_store (prisma.refreshToken_update_revoke id).
Proof.
  intros db [He Ht Hi Hf Hu]. unfold prisma.refreshToken_update_revoke.
  destruct (find _ _); simpl; [| constructor; assumption].
  constructor; simpl; try assumption.
  rewrite (map_token_revoke (fun x => Nat.eqb (rt_id x) id)). exact Ht.
Qed.

Lemma wf_refreshToken_updateMany_revoke w :
  preserves wf_store (prisma.refreshToken_updateMany_revoke w).
Proof.
  intros db [He Ht Hi Hf Hu]. unfold prisma.refreshToken_updateMany_revoke.
  constructor; simpl; try assumption.
  rewrite map_token_revoke. exact Ht.
Qed.

(** Every route keeps the store well-formed. *)
Lemma wf_serve env (i : Incoming) (db : Store) :
  wf_store db -> wf_store (snd (serve env i db)).
Proof.
  apply serve_preserves.
  - apply wf_user_create.
  - apply wf_user_update.
  - apply wf_loginLog_create.
  - apply wf_emailVerification_create.
  - apply wf_emailVerification_update_status.
  - apply wf_refreshToken_create.
  - apply wf_refreshToken_update_revoke.
  - apply wf_refreshToken_updateMany_revoke.
Qed.

(** Every store the server reaches from the empty one is well-formed. *)
Lemma wf_reachable env (l : list Incoming) :
  wf_store (serve_all env l empty_store).
Proof.
  assert (forall db, wf_store db -> wf_store (serve_all env l db)) as H.
  { induction l as [| i rest IH]; intros db Hdb; simpl; [exact Hdb |].
    apply IH. apply wf_serve. exact Hdb. }
  apply H. apply wf_empty.
Qed.

(** ** The audit log *)

Lemma logLoginAttempt_unknown t req ok why db :
  logLoginAttempt t None req ok why db = (inr tt, db).
Proof. reflexivity. Qed.

Lemma logLoginAttempt_known t uid req ok why db :
  prisma.user_exists uid db = true ->
  logLoginAttempt t (Some uid) req ok why db =
    (inr tt,
     mkStore (users db)
       (loginLogs db ++
          [mkLoginLog (nextId db) uid "EMAIL" (clientIP req)
             (env_or (req_userAgent req) "unknown") ok why t])
       (emailVerifications db) (refreshTokens db) (S (nextId db))).
Proof.
  intros H. unfold logLoginAttempt, prisma.loginLog_create. run.
  rewrite H. reflexivity.
Qed.

Lemma found_user_exists (f : User -> bool) (db : Store) (u : User) :
  find f (users db) = Some u -> prisma.user_exists (u_id u) db = true.
Proof.
  intros H. apply find_some in H. destruct H as [Hin _].
  unfold prisma.user_exists. apply existsb_exists.
  exists u. split; [exact Hin | apply Nat.eqb_refl].
Qed.


Lemma user_update_frame id d db :
  let db' := snd (prisma.user_update id d db) in
  loginLogs db' = loginLogs db /\
  emailVerifications db' = emailVerifications db /\
  refreshTokens db' = refreshTokens db /\
  nextId db' = nextId db /\
  forall uid, prisma.user_exists uid db' = prisma.user_exists uid db.
Proof.
  unfold prisma.user_update.
  destruct (find _ _); simpl; [| repeat split].
  destruct (prisma.username_taken _ _); simpl; repeat split.
  intros uid. unfold prisma.user_exists. simpl.
  apply existsb_map_same.
  intros x. destruct (Nat.eqb (u_id x) id); reflexivity.
Qed.

Lemma refreshToken_create_frame uid tok exp db :
  let db' := snd (prisma.refreshToken_create uid tok exp db) in
  users db' = users db /\ loginLogs db' = loginLogs db /\
  emailVerifications db' = emailVerifications db.
Proof.
  unfold prisma.refreshToken_create.
  destruct (existsb _ _); simpl; [repeat split |].
  destruct (negb _); simpl; repeat split.
Qed.

(** A login that succeeds writes the audit row last. *)
Lemma login_ok_step env sys req d db u :
  user_by_email (ls_email d) db = Some u ->
  status (fst (login env sys req (Some d) db)) = 200 ->
  u_isActive u = true /\
  bcrypt.compare (ls_password d) (u_password u) = true /\
  audit_appended db (snd (login env sys req (Some d) db)) (u_id u) true None /\
  exists tokens user,
    generateTokens env (now sys) (u_id u) = inr tokens /\
    data (body (fst (login env sys req (Some d) db))) =
      Some (JObj [("user", user);
                  ("tokens", JObj [
                     ("accessToken", JToken (accessToken tokens));
                     ("refreshToken", JToken (newRefreshToken tokens))])]).
Proof.
  intros Hu. unfold user_by_email in Hu.
  pose proof (found_user_exists _ _ _ Hu) as Hex.
  unfold login. run. rewrite Hu.
  destruct (u_isActive u) eqn:Ha; run.
  2: { rewrite (logLoginAttempt_known _ _ _ _ _ _ Hex). run.
       simpl. discriminate. }
  destruct (bcrypt.compare (ls_password d) (u_password u)) eqn:Hc; run.
  2: { rewrite (logLoginAttempt_known _ _ _ _ _ _ Hex). run.
       simpl. discriminate. }
  pose proof (user_update_frame (u_id u)
                (mkUserData None None None None None None (Some (now sys))) db)
    as Hf1.
  destruct (prisma.user_update _ _ db) as [[e | u'] db1];
    [simpl; discriminate |].
  simpl in Hf1. destruct Hf1 as [Hl1 [_ [_ [_ Hx1]]]].
  destruct (generateTokens env (now sys) (u_id u)) as [e | tokens] eqn:Hgen;
    [simpl; discriminate |].
  pose proof (refreshToken_create_frame (u_id u) (newRefreshToken tokens)
                (now sys + days 7) db1) as Hf2.
  destruct (prisma.refreshToken_create _ _ _ db1) as [[e | r] db2];
    [simpl; discriminate |].
  simpl in Hf2. destruct Hf2 as [Hu2 [Hl2 _]].
  assert (prisma.user_exists (u_id u) db2 = true) as Hex2.
  { rewrite (user_exists_users _ db1 db2 Hu2), Hx1. exact Hex. }
  rewrite (logLoginAttempt_known _ _ _ _ _ _ Hex2). run.
  intros _. split; [reflexivity |]. split; [reflexivity |]. split.
  - eexists. simpl. rewrite Hl2, Hl1. repeat split.
  - exists tokens. eexists. split; reflexivity.
Qed.



(** ** Login failures *)

(** C4, as amended: a login whose e-mail matches no user and a login whose
    e-mail matches an active user but with a wrong password get the same
    answer, HTTP 401 with message "Invalid credentials" and code
    [AUTH_INVALID_CREDENTIALS]; the response depends on nothing but the
    clock, so two such calls at the same instant are indistinguishable. *)
Theorem login_invalid_credentials_uniform :
  forall env sys1 sys2 req1 req2 d1 d2 db1 db2 u,
    user_by_email (ls_email d1) db1 = None ->
    user_by_email (ls_email d2) db2 = Some u ->
    u_isActive u = true ->
    bcrypt.compare (ls_password d2) (u_password u) = false ->
    fst (login env sys1 req1 (Some d1) db1) =
      mkResponse 401 (createErrorResponse (now sys1) "Invalid credentials"
                        AUTH_INVALID_CREDENTIALS)
    /\
    fst (login env sys2 req2 (Some d2) db2) =
      mkResponse 401 (createErrorResponse (now sys2) "Invalid credentials"
                        AUTH_INVALID_CREDENTIALS)
    /\
    (now sys1 = now sys2 ->
     fst (login env sys1 req1 (Some d1) db1)
     = fst (login env sys2 req2 (Some d2) db2)).
Proof.
  intros env sys1 sys2 req1 req2 d1 d2 db1 db2 u Hnone Hu Ha Hc.
  unfold user_by_email in *.
  assert (fst (login env sys1 req1 (Some d1) db1) =
          mkResponse 401 (createErrorResponse (now sys1) "Invalid credentials"
                            AUTH_INVALID_CREDENTIALS)) as H1.
  { unfold login. run. rewrite Hnone. reflexivity. }
  assert (fst (login env sys2 req2 (Some d2) db2) =
          mkResponse 401 (createErrorResponse (now sys2) "Invalid credentials"
                            AUTH_INVALID_CREDENTIALS)) as H2.
  { pose proof (found_user_exists _ _ _ Hu) as Hex.
    unfold login. run. rewrite Hu, Ha. run. rewrite Hc. run.
    rewrite (logLoginAttempt_known _ _ _ _ _ _ Hex). reflexivity. }
  repeat split; [exact H1 | exact H2 |].
  intros Hnow. rewrite H1, H2, Hnow. reflexivity.
Qed.

Lemma login_invalid_credentials_uniform_witness :
  fst (login sample_env (at_time 9000) sample_request
         (Some (mkLoginSchema "nobody@x.com" "Passw0rd1")) a_registered)
  = fst (login sample_env (at_time 9000) sample_request
           (Some (mkLoginSchema "a@x.com" "wrong")) a_registered).
Proof.
  apply (login_invalid_credentials_uniform sample_env (at_time 9000)
           (at_time 9000) sample_request sample_request
           (mkLoginSchema "nobody@x.com" "Passw0rd1")
           (mkLoginSchema "a@x.com" "wrong") a_registered a_registered a_row);
    reflexivity.
Defined.

(** C4, as stated, fails: for a deactivated account a wrong password is
    answered with HTTP 403 "Account is deactivated", an unknown e-mail with
    HTTP 401, so the two responses tell the caller that the account
    exists. *)
Lemma login_deactivated_account_distinguishable :
  ~ (forall env sys req db d1 d2 u,
       user_by_email (ls_email d1) db = None ->
       user_by_email (ls_email d2) db = Some u ->
       bcrypt.compare (ls_password d2) (u_password u) = false ->
       fst (login env sys req (Some d1) db)
       = fst (login env sys req (Some d2) db)).
Proof.
  intros H.
  specialize (H sample_env (at_time 9000) sample_request a_deactivated
                (mkLoginSchema "nobody@x.com" "Passw0rd1")
                (mkLoginSchema "a@x.com" "wrong") (deactivate a_row)
                eq_refl eq_refl eq_refl).
  vm_compute in H. discriminate H.
Qed.

(** ** Registration *)

Lemma register_email_taken sys req data db u :
  In u (users db) ->
  u_email u = toLowerCase (rs_email data) ->
  register sys req (Some data) db =
    (mkResponse 409 (createErrorResponse (now sys)
       "User already exists with this email" AUTH_USER_EXISTS), db).
Proof.
  intros Hin Hmail.
  unfold register. run.
  destruct (find (fun x => String.eqb (u_email x) (toLowerCase (rs_email data)))
              (users db)) eqn:Hf.
  - reflexivity.
  - apply find_none with (x := u) in Hf; [| exact Hin].
    rewrite Hmail, String.eqb_refl in Hf. discriminate Hf.
Qed.

(** C5: when a user row already carries the lower-cased e-mail of the
    request, [register] answers HTTP 409 with code [AUTH_USER_EXISTS] and
    writes nothing: the store, and so the set of user rows, is unchanged. *)
Theorem register_existing_email_conflict :
  forall sys req data db u,
    In u (users db) ->
    u_email u = toLowerCase (rs_email data) ->
    register sys req (Some data) db =
      (mkResponse 409 (createErrorResponse (now sys)
         "User already exists with this email" AUTH_USER_EXISTS), db).
Proof.
  intros sys req data db u. apply register_email_taken.
Qed.

Lemma register_existing_email_conflict_witness :
  register (at_time 7000) sample_request (Some a_signup_again) a_registered =
    (mkResponse 409 (createErrorResponse 7000
       "User already exists with this email" AUTH_USER_EXISTS), a_registered).
Proof.
  apply (register_existing_email_conflict (at_time 7000) sample_request
           a_signup_again a_registered a_row).
  - left. reflexivity.
  - reflexivity.
Defined.

(** ** Logout *)



Lemma logout_store sys bodyToken db :
  snd (logout sys bodyToken db) =
    match bodyToken with
    | Some t =>
        if token_truthy t
        then mkStore (users db) (loginLogs db) (emailVerifications db)
               (map (fun r => if Token_eqb (rt_token r) t
                              then prisma.revoke r else r) (refreshTokens db))
               (nextId db)
        else db
    | None => db
    end.
Proof.
  unfold logout. destruct bodyToken as [t |]; [| reflexivity].
  destruct (token_truthy t); reflexivity.
Qed.



(** ** E-mail verification *)

(** C10: a stored verification token past its expiry is rejected with
    [AUTH_TOKEN_EXPIRED] (HTTP 400) whatever its status, [VERIFIED]
    included: the expiry test comes before the already-verified branch.
    Nothing is written. *)
Theorem verifyEmail_expired_before_verified :
  forall (sys : Sys) (token : string) (db : Store) (v : EmailVerification),
    stored_verification token db = Some v ->
    ev_expiresAt v < now sys ->
    verifyEmail sys token db =
      (mkResponse 400 (createErrorResponse (now sys)
         "Verification token has expired" AUTH_TOKEN_EXPIRED), db).
Proof.
  intros sys token db v Hfind Hexp.
  unfold stored_verification in Hfind. unfold verifyEmail. run.
  rewrite Hfind. apply Z.ltb_lt in Hexp. rewrite Hexp. reflexivity.
Qed.

Lemma emailVerification_create_users uid tok email exp db :
  users (snd (prisma.emailVerification_create uid tok email exp db)) = users db.
Proof.
  unfold prisma.emailVerification_create.
  destruct (existsb _ _); [reflexivity |].
  destruct (negb _); reflexivity.
Qed.

Lemma logLoginAttempt_users t uid req ok why db :
  users (snd (logLoginAttempt t uid req ok why db)) = users db.
Proof.
  unfold logLoginAttempt, prisma.loginLog_create. run.
  destruct uid as [id |]; [| reflexivity].
  destruct (prisma.user_exists id db); reflexivity.
Qed.

(** Registering twice: after a registration answered 201, any request
    whose e-mail lower-cases to the same address gets the 409, and the
    store stays as the first registration left it. *)
Lemma register_twice_conflict sys1 req1 d1 sys2 req2 d2 db :
  status (fst (register sys1 req1 (Some d1) db)) = 201 ->
  toLowerCase (rs_email d2) = toLowerCase (rs_email d1) ->
  register sys2 req2 (Some d2) (snd (register sys1 req1 (Some d1) db)) =
    (mkResponse 409 (createErrorResponse (now sys2)
       "User already exists with this email" AUTH_USER_EXISTS),
     snd (register sys1 req1 (Some d1) db)).
Proof.
  intros H201 Hmail.
  assert (exists u, In u (users (snd (register sys1 req1 (Some d1) db)))
                    /\ u_email u = toLowerCase (rs_email d1)) as [u [Hin Hu]].
  { revert H201. unfold register. run.
    destruct (find _ (users db)); [simpl; discriminate |].
    match goal with
    | |- context [match ?m db with _ => _ end] =>
        assert (snd (m db) = db) as Hread
          by (destruct (rs_username d1) as [n |];
              [destruct (truthy n) |]; reflexivity);
        destruct (m db) as [[e | existing] db0]
    end; [simpl; discriminate |].
    simpl in Hread. subst db0.
    destruct existing; [simpl; discriminate |].
    unfold prisma.user_create.
    destruct (_ || _); run; [simpl; discriminate |].
    match goal with
    | |- context [prisma.emailVerification_create ?a ?b ?c ?d ?s] =>
        pose proof (emailVerification_create_users a b c d s) as Hev;
        destruct (prisma.emailVerification_create a b c d s) as [[e | v] db2]
    end; [simpl; discriminate |].
    match goal with
    | |- context [logLoginAttempt ?a ?b ?c ?d ?e db2] =>
        pose proof (logLoginAttempt_users a b c d e db2) as Hlog;
        destruct (logLoginAttempt a b c d e db2) as [[e' | []] db3]
    end; [simpl; discriminate |].
    intros _. simpl in *. eexists. rewrite Hlog, Hev. split.
    - apply in_or_app. right. left. reflexivity.
    - reflexivity. }
  apply register_email_taken with (u := u); [exact Hin |].
  rewrite Hu, Hmail. reflexivity.
Qed.

Lemma verifyEmail_expired_before_verified_witness :
  verifyEmail (at_time 90000000) "5f2a9c" a_verified =
    (mkResponse 400 (createErrorResponse 90000000
       "Verification token has expired" AUTH_TOKEN_EXPIRED), a_verified).
Proof.
  apply (verifyEmail_expired_before_verified (at_time 90000000) "5f2a9c"
           a_verified (prisma.set_status VERIFIED a_verification)).
  - reflexivity.
  - reflexivity.
Defined.


(** The first verification of a pending, unexpired token. *)
Lemma verifyEmail_pending sys token db v :
  wf_store db ->
  stored_verification token db = Some v ->
  ev_status v = PENDING ->
  now sys <= ev_expiresAt v ->
  verifyEmail sys token db =
    (mkResponse 200 (createSuccessResponse (now sys) JNull
       "Email verified successfully" "EMAIL_VERIFICATION_SUCCESS"),
     mkStore
       (map (fun x => if Nat.eqb (u_id x) (ev_userId v)
                      then apply_data verified_data x else x) (users db))
       (loginLogs db)
       (map (fun x => if Nat.eqb (ev_id x) (ev_id v)
                      then prisma.set_status VERIFIED x else x)
          (emailVerifications db))
       (refreshTokens db) (nextId db)).
Proof.
  intros Hwf Hfind Hst Hexp. unfold stored_verification in Hfind.
  pose proof (find_some _ _ Hfind) as [Hin _].
  pose proof (wf_ev_user db Hwf) as Hfk.
  rewrite Forall_forall in Hfk. specialize (Hfk v Hin).
  unfold prisma.user_exists in Hfk. rewrite existsb_find in Hfk.
  unfold verifyEmail. run. rewrite Hfind.
  replace (ev_expiresAt v <? now sys) with false
    by (symmetry; apply Z.ltb_ge; exact Hexp).
  rewrite Hst. unfold prisma.user_update. run.
  destruct (find (fun u => Nat.eqb (u_id u) (ev_userId v)) (users db));
    [| discriminate Hfk].
  simpl prisma.username_taken. run.
  unfold prisma.emailVerification_update_status. simpl emailVerifications.
  destruct (find (fun x => Nat.eqb (ev_id x) (ev_id v)) (emailVerifications db))
    eqn:Hid.
  - reflexivity.
  - apply find_none with (x := v) in Hid; [| exact Hin].
    rewrite Nat.eqb_refl in Hid. discriminate Hid.
Qed.




(** ** Password change *)

Lemma find_unique_token (l : list RefreshToken) (r : RefreshToken) :
  NoDup (map rt_token l) -> In r l ->
  find (fun x => Token_eqb (rt_token x) (rt_token r)) l = Some r.
Proof.
  induction l as [| a l IH]; simpl; intros Hnd Hin; [contradiction |].
  inversion Hnd as [| ? ? Ha Hl]; subst.
  destruct (Token_eqb (rt_token a) (rt_token r)) eqn:E.
  - destruct Hin as [-> | Hin]; [reflexivity |].
    apply Token_eqb_eq in E. exfalso. apply Ha. rewrite E.
    apply in_map. exact Hin.
  - destruct Hin as [-> | Hin].
    + rewrite Token_eqb_refl in E. discriminate E.
    + apply IH; assumption.
Qed.

(** A password change that answers 200 has revoked the user's rows. *)
Lemma changePassword_ok sys user parsed db :
  status (fst (changePassword sys user parsed db)) = 200 ->
  refreshTokens (snd (changePassword sys user parsed db)) =
    map (fun x => if Nat.eqb (rt_userId x) (a_id user)
                  then prisma.revoke x else x) (refreshTokens db).
Proof.
  unfold changePassword. run.
  destruct parsed as [data |]; [| simpl; discriminate].
  destruct (find (fun u => Nat.eqb (u_id u) (a_id user)) (users db));
    [| simpl; discriminate].
  destruct (bcrypt.compare (cp_currentPassword data) (u_password u));
    run; [| simpl; discriminate].
  match goal with
  | |- context [prisma.user_update ?i ?d db] =>
      pose proof (user_update_frame i d db) as Hf;
      destruct (prisma.user_update i d db) as [[e | u'] db1]
  end; [simpl; discriminate |].
  simpl in Hf. destruct Hf as [_ [_ [Hr _]]].
  intros _. unfold prisma.refreshToken_updateMany_revoke. simpl.
  rewrite Hr. reflexivity.
Qed.

(** C6: when [changePassword] answers 200, every refresh-token row of
    that user is marked revoked, and from then on, whatever requests are
    served in between, the refresh endpoint refuses (HTTP 401) the token
    of every row the user had before the change, and writes nothing. *)
Theorem changePassword_revokes_sessions :
  forall sys user parsed db,
    wf_store db ->
    status (fst (changePassword sys user parsed db)) = 200 ->
    let db1 := snd (changePassword sys user parsed db) in
    (forall r, In r (refreshTokens db1) -> rt_userId r = a_id user ->
       rt_isRevoked r = true) /\
    (forall r env later sys',
       In r (refreshTokens db) -> rt_userId r = a_id user ->
       let db2 := serve_all env later db1 in
       refused_401 (fst (refreshToken env sys' (Some (rt_token r)) db2)) /\
       snd (refreshToken env sys' (Some (rt_token r)) db2) = db2).
Proof.
  intros sys user parsed db Hwf H200 db1.
  pose proof (changePassword_ok sys user parsed db H200) as Hrts.
  fold db1 in Hrts. split.
  - intros r Hr Hid. rewrite Hrts in Hr. apply in_map_iff in Hr.
    destruct Hr as [x [Hx _]].
    destruct (Nat.eqb (rt_userId x) (a_id user)) eqn:E; subst r.
    + reflexivity.
    + apply Nat.eqb_neq in E. contradiction.
  - intros r env later sys' Hr Hid db2.
    apply refreshToken_revoked_refused. unfold db2.
    apply revoked_forever.
    exists (prisma.revoke r). split; [| reflexivity].
    unfold stored_refreshToken. rewrite Hrts.
    rewrite find_map_same
      by (intros x; destruct (Nat.eqb (rt_userId x) (a_id user)); reflexivity).
    rewrite (find_unique_token _ r (wf_tokens db Hwf) Hr). simpl.
    rewrite Hid, Nat.eqb_refl. reflexivity.
Qed.

Lemma changePassword_revokes_sessions_witness :
  refused_401
    (fst (refreshToken sample_env (at_time 7000) (Some a_refresh_0)
            (serve_all sample_env
               [mkIncoming (at_time 6500) sample_request
                  (PostLogin (Some (mkLoginSchema "a@x.com" "N3wPassw0rd")))]
               (snd (changePassword (at_time 6000) a_user
                       (Some (mkChangePasswordSchema "Passw0rd1" "N3wPassw0rd"))
                       a_logged_in))))).
Proof.
  apply (changePassword_revokes_sessions (at_time 6000) a_user
           (Some (mkChangePasswordSchema "Passw0rd1" "N3wPassw0rd"))
           a_logged_in (wf_storeb_sound a_logged_in eq_refl) eq_refl)
    with (r := a_session_0).
  - left. reflexivity.
  - reflexivity.
Defined.

(** ** Refresh-token rotation *)

(** What a refresh that answers 200 has read and written. *)
Lemma refreshToken_ok env sys token db :
  status (fst (refreshToken env sys (Some token) db)) = 200 ->
  exists decoded r tokens,
    jwt.verify token (JWT_REFRESH_SECRET env) (now sys) = inr decoded /\
    stored_refreshToken token db = Some r /\
    rt_isRevoked r = false /\
    generateTokens env (now sys) (c_userId decoded) = inr tokens /\
    stored_refreshToken (newRefreshToken tokens) db = None /\
    prisma.user_exists (c_userId decoded) db = true /\
    refreshToken env sys (Some token) db =
      (refreshed (now sys) tokens,
       rotated db r (c_userId decoded) (newRefreshToken tokens) (now sys)).
Proof.
  unfold refreshToken, stored_refreshToken. run.
  destruct (jwt.verify token (JWT_REFRESH_SECRET env) (now sys))
    as [e | decoded] eqn:Hver; [simpl; discriminate |].
  destruct (find (fun r => Token_eqb (rt_token r) token) (refreshTokens db))
    as [r |] eqn:Hfind; [| simpl; discriminate].
  unfold unusable.
  destruct (rt_isRevoked r) eqn:Hrev; [simpl; discriminate |].
  destruct (rt_expiresAt r <? now sys); [simpl; discriminate |].
  cbn [orb]. run.
  destruct (generateTokens env (now sys) (c_userId decoded))
    as [e | tokens] eqn:Hgen; [simpl; discriminate |].
  unfold prisma.refreshToken_update_revoke.
  destruct (find (fun x => Nat.eqb (rt_id x) (rt_id r)) (refreshTokens db))
    eqn:Hid; run; [| simpl; discriminate].
  unfold prisma.refreshToken_create. cbn [refreshTokens users].
  rewrite existsb_map_same
    by (intros x; destruct (Nat.eqb (rt_id x) (rt_id r)); reflexivity).
  rewrite existsb_find.
  destruct (find (fun r0 => Token_eqb (rt_token r0) (newRefreshToken tokens))
              (refreshTokens db)) eqn:Hnew; run; [simpl; discriminate |].
  unfold prisma.user_exists. cbn [users].
  destruct (existsb (fun u => Nat.eqb (u_id u) (c_userId decoded)) (users db))
    eqn:Hfk; run; [| simpl; discriminate].
  intros _. exists decoded, r, tokens. repeat split; try assumption.
Qed.

(** A token that was redeemed is refused ever after. *)
Lemma refreshToken_replay_refused env sys token db later env' sys' :
  status (fst (refreshToken env sys (Some token) db)) = 200 ->
  let db' := serve_all env' later (snd (refreshToken env sys (Some token) db)) in
  refused_401 (fst (refreshToken env' sys' (Some token) db')) /\
  snd (refreshToken env' sys' (Some token) db') = db'.
Proof.
  intros H200 db'.
  destruct (refreshToken_ok env sys token db H200)
    as [decoded [r [tokens [_ [Hfind [_ [_ [_ [_ Hout]]]]]]]]].
  apply refreshToken_revoked_refused. unfold db'. apply revoked_forever.
  rewrite Hout. simpl. exists (prisma.revoke r). split; [| reflexivity].
  unfold stored_refreshToken, rotated in *. simpl.
  apply find_app_some.
  rewrite find_map_same
    by (intros x; destruct (Nat.eqb (rt_id x) (rt_id r)); reflexivity).
  rewrite Hfind. simpl. rewrite Nat.eqb_refl. reflexivity.
Qed.

(** What a refresh does once the presented token has passed the checks:
    the row is revoked first, and the insert of the new token may still
    be refused by the store. *)
Lemma refreshToken_eval env sys token db decoded r tokens :
  jwt.verify token (JWT_REFRESH_SECRET env) (now sys) = inr decoded ->
  stored_refreshToken token db = Some r ->
  rt_isRevoked r = false ->
  now sys <= rt_expiresAt r ->
  generateTokens env (now sys) (c_userId decoded) = inr tokens ->
  refreshToken env sys (Some token) db =
    if existsb (fun x => Token_eqb (rt_token x) (newRefreshToken tokens))
         (refreshTokens db)
    then (internal_error (now sys), redeemed db r)
    else if prisma.user_exists (c_userId decoded) db
    then (refreshed (now sys) tokens,
          rotated db r (c_userId decoded) (newRefreshToken tokens) (now sys))
    else (internal_error (now sys), redeemed db r).
Proof.
  intros Hver Hfind Hrev Hexp Hgen. unfold stored_refreshToken in Hfind.
  unfold refreshToken. run. rewrite Hver, Hfind. unfold unusable.
  rewrite Hrev.
  replace (rt_expiresAt r <? now sys) with false
    by (symmetry; apply Z.ltb_ge; exact Hexp).
  cbn [orb]. run. rewrite Hgen.
  unfold prisma.refreshToken_update_revoke.
  destruct (find (fun x => Nat.eqb (rt_id x) (rt_id r)) (refreshTokens db))
    eqn:Hid.
  2: { apply find_some in Hfind. destruct Hfind as [Hin _].
       apply find_none with (x := r) in Hid; [| exact Hin].
       rewrite Nat.eqb_refl in Hid. discriminate Hid. }
  run. unfold prisma.refreshToken_create. cbn [refreshTokens users].
  rewrite existsb_map_same
    by (intros x; destruct (Nat.eqb (rt_id x) (rt_id r)); reflexivity).
  destruct (existsb _ (refreshTokens db)); run; [reflexivity |].
  unfold prisma.user_exists. cbn [users].
  destruct (existsb _ (users db)); run; reflexivity.
Qed.

Lemma generateTokens_refresh env t uid tokens :
  generateTokens env t uid = inr tokens ->
  exists key,
    JWT_REFRESH_SECRET env = Some key /\ truthy key = true /\
    newRefreshToken tokens =
      Signed (mkClaims uid None None None None (Some (seconds t)) None) key.
Proof.
  unfold generateTokens, jwt.sign. simpl.
  destruct (JWT_SECRET env) as [a |]; [| discriminate].
  destruct (truthy a); simpl; [| discriminate].
  destruct (JWT_REFRESH_SECRET env) as [k |]; [| discriminate].
  destruct (truthy k) eqn:Hk; simpl; [| discriminate].
  intros H. inversion H. exists k. repeat split. exact Hk.
Qed.

(** The tokens minted for a user depend on the clock through its second
    only. *)
Lemma generateTokens_same_second env t t' uid :
  seconds t = seconds t' ->
  generateTokens env t uid = generateTokens env t' uid.
Proof.
  intros H. unfold generateTokens, jwt.sign. simpl. rewrite H. reflexivity.
Qed.

(** A refresh token minted by [generateTokens] carries no expiry: its
    signature check passes at any time. *)
Lemma minted_refresh_verifies env t uid tokens t' :
  generateTokens env t uid = inr tokens ->
  exists decoded,
    jwt.verify (newRefreshToken tokens) (JWT_REFRESH_SECRET env) t'
      = inr decoded /\ c_userId decoded = uid.
Proof.
  intros H. destruct (generateTokens_refresh env t uid tokens H)
    as [key [Hk [Ht ->]]].
  eexists. unfold jwt.verify. rewrite Hk, Ht. simpl.
  rewrite String.eqb_refl. simpl. split; reflexivity.
Qed.

Lemma rotated_stores_fresh db r uid fresh t :
  stored_refreshToken fresh db = None ->
  stored_refreshToken fresh (rotated db r uid fresh t)
  = Some (mkRefreshToken (nextId db) uid fresh false (t + days 7)).
Proof.
  intros H. unfold stored_refreshToken, rotated in *. simpl.
  rewrite find_app_none.
  - simpl. rewrite Token_eqb_refl. reflexivity.
  - rewrite find_map_same
      by (intros x; destruct (Nat.eqb (rt_id x) (rt_id r)); reflexivity).
    rewrite H. reflexivity.
Qed.

(** After a refresh that answered 200, the token it issued is accepted
    when it is presented within its seven days and the token that this
    second refresh mints is not in the table yet. *)
Lemma refreshToken_rotated_accepted env sys token db sys' :
  status (fst (refreshToken env sys (Some token) db)) = 200 ->
  exists tokens uid,
    fst (refreshToken env sys (Some token) db) = refreshed (now sys) tokens /\
    let db1 := snd (refreshToken env sys (Some token) db) in
    forall tokens',
      now sys' <= now sys + days 7 ->
      generateTokens env (now sys') uid = inr tokens' ->
      stored_refreshToken (newRefreshToken tokens') db1 = None ->
      fst (refreshToken env sys' (Some (newRefreshToken tokens)) db1)
      = refreshed (now sys') tokens'.
Proof.
  intros H200.
  destruct (refreshToken_ok env sys token db H200)
    as [decoded [r [tokens [Hver [Hfind [Hrev [Hgen [Hnew [Hfk Hout]]]]]]]]].
  exists tokens, (c_userId decoded). rewrite Hout. simpl fst.
  split; [reflexivity |].
  simpl snd. cbv zeta. intros tokens' Hexp Hgen' Hnew'.
  destruct (minted_refresh_verifies _ _ _ _ (now sys') Hgen)
    as [decoded' [Hver' Huid']].
  rewrite <- Huid' in Hgen'.
  rewrite (refreshToken_eval env sys' (newRefreshToken tokens) _ decoded'
             _ tokens' Hver' (rotated_stores_fresh _ _ _ _ _ Hnew) eq_refl
             Hexp Hgen').
  unfold stored_refreshToken in Hnew'. rewrite existsb_find, Hnew'.
  rewrite Huid'.
  rewrite (user_exists_users _ db (rotated db r _ _ _) eq_refl), Hfk.
  reflexivity.
Qed.

(** ... but when it is presented within the clock second in which it was
    issued, the second refresh mints the very same string, the store
    refuses the duplicate, the caller gets HTTP 500, and the token just
    presented is left revoked. *)
Lemma refreshToken_same_second_fails env sys token db sys' :
  status (fst (refreshToken env sys (Some token) db)) = 200 ->
  seconds (now sys') = seconds (now sys) ->
  now sys' <= now sys + days 7 ->
  exists tokens,
    fst (refreshToken env sys (Some token) db) = refreshed (now sys) tokens /\
    let db1 := snd (refreshToken env sys (Some token) db) in
    fst (refreshToken env sys' (Some (newRefreshToken tokens)) db1)
      = internal_error (now sys') /\
    revoked_token (newRefreshToken tokens)
      (snd (refreshToken env sys' (Some (newRefreshToken tokens)) db1)).
Proof.
  intros H200 Hsec Hexp.
  destruct (refreshToken_ok env sys token db H200)
    as [decoded [r [tokens [Hver [Hfind [Hrev [Hgen [Hnew [Hfk Hout]]]]]]]]].
  exists tokens. rewrite Hout. simpl fst. split; [reflexivity |].
  simpl snd. cbv zeta.
  destruct (minted_refresh_verifies _ _ _ _ (now sys') Hgen)
    as [decoded' [Hver' Huid']].
  pose proof (rotated_stores_fresh db r (c_userId decoded)
                (newRefreshToken tokens) (now sys) Hnew) as Hrow.
  assert (generateTokens env (now sys') (c_userId decoded') = inr tokens)
    as Hgen'.
  { rewrite Huid', (generateTokens_same_second env _ (now sys) _ Hsec).
    exact Hgen. }
  rewrite (refreshToken_eval env sys' (newRefreshToken tokens) _ decoded'
             _ tokens Hver' Hrow eq_refl Hexp Hgen').
  assert (existsb (fun x => Token_eqb (rt_token x) (newRefreshToken tokens))
            (refreshTokens (rotated db r (c_userId decoded)
                              (newRefreshToken tokens) (now sys))) = true)
    as Hdup.
  { rewrite existsb_find. unfold stored_refreshToken in Hrow.
    rewrite Hrow. reflexivity. }
  rewrite Hdup. unfold stored_refreshToken in Hrow.
  simpl fst. simpl snd. split; [reflexivity |].
  eexists. unfold stored_refreshToken, redeemed. cbn [refreshTokens].
  rewrite find_map_same, Hrow.
  - simpl. rewrite Nat.eqb_refl. split; reflexivity.
  - intros x. simpl. destruct (Nat.eqb (rt_id x) (nextId db)); reflexivity.
Qed.

(** C1: the rotation breaks when the new token is used at once. Alice's
    refresh token is redeemed at 5.1 s (HTTP 200, a new refresh token is
    issued, and the old one is refused from then on); the new token,
    presented at 5.9 s, is answered with HTTP 500 instead of a new pair,
    and is refused ever after, because the failed call still revoked it. *)
Theorem refresh_same_second_collision :
  let first := refreshToken sample_env (at_time 5100) (Some a_refresh_0)
                 a_logged_in in
  let replay := refreshToken sample_env (at_time 5500) (Some a_refresh_0)
                  (snd first) in
  let second := refreshToken sample_env (at_time 5900) (Some a_refresh_1)
                  (snd first) in
  let third := refreshToken sample_env (at_time 7000) (Some a_refresh_1)
                 (snd second) in
  fst first
    = refreshed 5100
        (mkTokenPair
           (Signed (mkClaims 0%nat None None None None (Some 5) None)
              "access-secret-access-secret-0123")
           a_refresh_1) /\
  refused_401 (fst replay) /\
  fst second = internal_error 5900 /\
  revoked_token a_refresh_1 (snd second) /\
  refused_401 (fst third).
Proof.
  cbv zeta. split; [reflexivity |].
  split; [repeat split |].
  split; [reflexivity |].
  split; [| repeat split].
  eexists. split; reflexivity.
Qed.

(** ** The token issuer *)

Lemma getAccessSecret_ok env s :
  JwtService.getAccessSecret env = inr s ->
  JWT_SECRET env = Some s /\ truthy s = true.
Proof.
  unfold JwtService.getAccessSecret.
  destruct (JWT_SECRET env) as [k |]; [| discriminate].
  destruct (truthy k) eqn:Hk; [| discriminate].
  intros H. inversion H. subst. split; [reflexivity | exact Hk].
Qed.

Lemma verify_signed claims key t :
  truthy key = true ->
  jwt.verify (Signed claims key) (Some key) t =
    match c_exp claims with
    | Some e =>
        if e <=? seconds t then inl (JwtThrown TokenExpiredError)
        else inr claims
    | None => inr claims
    end.
Proof.
  intros Hk. unfold jwt.verify. rewrite Hk, String.eqb_refl. reflexivity.
Qed.

(** The gate lets a request through on the signature, the expiry and the
    user's row alone. *)
Lemma authMiddleware_accepts env sys req db token claims u :
  req_authorization req = Some (Bearer token) ->
  jwt.verify token (JWT_SECRET env) (now sys) = inr claims ->
  find (fun x => Nat.eqb (u_id x) (c_userId claims)) (users db) = Some u ->
  u_isActive u = true ->
  authMiddleware env sys req db = Next (select_user u).
Proof.
  intros Hh Hv Hu Ha. unfold authMiddleware. rewrite Hh, Hv.
  unfold prisma.user_findUnique_id. simpl. rewrite Hu, Ha. reflexivity.
Qed.

(** An access token of [JwtService] expires after the configured
    lifetime, fifteen minutes unless [JWT_EXPIRES_IN] says otherwise. *)
Lemma generateAccessToken_expires env t uid email role sid token millis :
  ms (JwtService.getAccessExpiresIn env) = Some millis ->
  JwtService.generateAccessToken env t uid email role sid = inr token ->
  (forall t', seconds t + millis / 1000 <= seconds t' ->
     JwtService.verifyAccessToken env t' token
     = inl (ErrorThrown "Access token expired")) /\
  (forall t', seconds t' < seconds t + millis / 1000 ->
     exists claims, JwtService.verifyAccessToken env t' token = inr claims
                    /\ c_type claims = Some "access").
Proof.
  intros Hms. unfold JwtService.generateAccessToken, JwtService.rethrow,
    JwtService.with_secret.
  destruct (JwtService.getAccessSecret env) as [e | s] eqn:Hs; [discriminate |].
  destruct (getAccessSecret_ok env s Hs) as [_ Hk].
  unfold jwt.sign, jwt.timespan. rewrite Hk, Hms. simpl.
  intros H. inversion H. subst token. clear H.
  unfold JwtService.verifyAccessToken, JwtService.with_secret. rewrite Hs.
  split; intros t' Ht'; rewrite (verify_signed _ _ _ Hk); simpl.
  - replace (seconds t + millis / 1000 <=? seconds t') with true
      by (symmetry; apply Z.leb_le; exact Ht').
    reflexivity.
  - replace (seconds t + millis / 1000 <=? seconds t') with false
      by (symmetry; apply Z.leb_gt; exact Ht').
    eexists. split; reflexivity.
Qed.

Lemma default_access_lifetime env :
  JWT_EXPIRES_IN env = None ->
  ms (JwtService.getAccessExpiresIn env) = Some (15 * 60 * 1000).
Proof.
  intros H. unfold JwtService.getAccessExpiresIn. rewrite H. reflexivity.
Qed.

(** [verifyEmailVerifyToken] does look at the purpose: it never accepts
    an access token. *)
Lemma verifyEmailVerifyToken_checks_purpose env t uid email role sid token t' :
  JwtService.generateAccessToken env t uid email role sid = inr token ->
  exists e, JwtService.verifyEmailVerifyToken env t' token = inl e.
Proof.
  unfold JwtService.generateAccessToken, JwtService.rethrow,
    JwtService.with_secret.
  destruct (JwtService.getAccessSecret env) as [e | s] eqn:Hs; [discriminate |].
  destruct (getAccessSecret_ok env s Hs) as [_ Hk].
  unfold jwt.sign. rewrite Hk. simpl.
  destruct (jwt.timespan _ _) as [e |]; [| discriminate].
  intros H. inversion H. subst token. clear H.
  unfold JwtService.verifyEmailVerifyToken, JwtService.with_secret.
  rewrite Hs, (verify_signed _ _ _ Hk). simpl.
  destruct (e <=? seconds t'); eexists; reflexivity.
Qed.

(** C2: the purpose claim is not checked where an access token is
    expected. A token issued for e-mail verification, or for a password
    reset, is signed with the access secret; for as long as it is
    unexpired [verifyAccessToken] returns its claims instead of failing,
    and the request gate, which verifies with the same secret, lets a
    request carrying it through as the user it names. *)
Theorem access_check_ignores_purpose :
  forall env t uid email,
    (forall token t',
       JwtService.generateEmailVerifyToken env t uid email = inr token ->
       seconds t' < seconds t + 24 * 60 * 60 ->
       (exists claims,
          JwtService.verifyAccessToken env t' token = inr claims /\
          c_type claims = Some "email_verify" /\ c_userId claims = uid) /\
       (forall sys req db u,
          now sys = t' ->
          req_authorization req = Some (Bearer token) ->
          find (fun x => Nat.eqb (u_id x) uid) (users db) = Some u ->
          u_isActive u = true ->
          authMiddleware env sys req db = Next (select_user u))) /\
    (forall token t',
       JwtService.generatePasswordResetToken env t uid email = inr token ->
       seconds t' < seconds t + 60 * 60 ->
       exists claims,
         JwtService.verifyAccessToken env t' token = inr claims /\
         c_type claims = Some "password_reset" /\ c_userId claims = uid).
Proof.
  intros env t uid email. split.
  - intros token t'.
    unfold JwtService.generateEmailVerifyToken, JwtService.rethrow,
      JwtService.with_secret.
    destruct (JwtService.getAccessSecret env) as [e | s] eqn:Hs;
      [discriminate |].
    destruct (getAccessSecret_ok env s Hs) as [Hsec Hk].
    unfold jwt.sign. rewrite Hk. simpl.
    intros H Ht'. inversion H. subst token. clear H.
    assert ((seconds t + 86400000 / 1000 <=? seconds t') = false) as Hexp.
    { apply Z.leb_gt. change (86400000 / 1000) with 86400. lia. }
    split.
    + unfold JwtService.verifyAccessToken, JwtService.with_secret.
      rewrite Hs, (verify_signed _ _ _ Hk). simpl. rewrite Hexp.
      eexists. repeat split.
    + intros sys req db u Hnow Hh Hu Ha.
      eapply authMiddleware_accepts.
      * exact Hh.
      * rewrite Hsec, Hnow, (verify_signed _ _ _ Hk). simpl. rewrite Hexp.
        reflexivity.
      * exact Hu.
      * exact Ha.
  - intros token t'.
    unfold JwtService.generatePasswordResetToken, JwtService.rethrow,
      JwtService.with_secret.
    destruct (JwtService.getAccessSecret env) as [e | s] eqn:Hs;
      [discriminate |].
    destruct (getAccessSecret_ok env s Hs) as [Hsec Hk].
    unfold jwt.sign. rewrite Hk. simpl.
    intros H Ht'. inversion H. subst token. clear H.
    assert ((seconds t + 3600000 / 1000 <=? seconds t') = false) as Hexp.
    { apply Z.leb_gt. change (3600000 / 1000) with 3600. lia. }
    unfold JwtService.verifyAccessToken, JwtService.with_secret.
    rewrite Hs, (verify_signed _ _ _ Hk). simpl. rewrite Hexp.
    eexists. repeat split.
Qed.

Lemma access_check_ignores_purpose_witness :
  authMiddleware sample_env (at_time 50000000) (bearer a_verify_jwt)
    a_registered
  = Next (select_user a_row).
Proof.
  apply (proj2 (proj1 (access_check_ignores_purpose sample_env 1000 0%nat
                         "a@x.com")
                  a_verify_jwt 50000000 eq_refl eq_refl)).
  - reflexivity.
  - reflexivity.
  - reflexivity.
  - reflexivity.
Defined.

Lemma generateTokens_access env t uid tokens :
  generateTokens env t uid = inr tokens ->
  exists key,
    JWT_SECRET env = Some key /\ truthy key = true /\
    accessToken tokens =
      Signed (mkClaims uid None None None None (Some (seconds t)) None) key.
Proof.
  unfold generateTokens, jwt.sign. simpl.
  destruct (JWT_SECRET env) as [a |]; [| discriminate].
  destruct (truthy a) eqn:Ha; simpl; [| discriminate].
  destruct (JWT_REFRESH_SECRET env) as [k |]; [| discriminate].
  destruct (truthy k); simpl; [| discriminate].
  intros H. inversion H. exists a. repeat split. exact Ha.
Qed.

(** C3: the access token of the pair that a successful login returns
    carries no expiry at all: [generateTokens] signs it without
    [expiresIn], so its verification succeeds at every later time,
    through [jwt.verify] as the request gate calls it and through
    [verifyAccessToken] alike, whatever lifetime is configured. *)
Theorem login_access_token_never_expires :
  forall env sys req d db,
    status (fst (login env sys req (Some d) db)) = 200 ->
    exists tokens user claims,
      data (body (fst (login env sys req (Some d) db))) =
        Some (JObj [("user", user);
                    ("tokens", JObj [
                       ("accessToken", JToken (accessToken tokens));
                       ("refreshToken", JToken (newRefreshToken tokens))])]) /\
      c_exp claims = None /\
      forall t',
        jwt.verify (accessToken tokens) (JWT_SECRET env) t' = inr claims /\
        JwtService.verifyAccessToken env t' (accessToken tokens) = inr claims.
Proof.
  intros env sys req d db H200.
  destruct (user_by_email (ls_email d) db) as [u |] eqn:Hu.
  - destruct (login_ok_step env sys req d db u Hu H200)
      as [_ [_ [_ [tokens [user [Hgen Hdata]]]]]].
    destruct (generateTokens_access _ _ _ _ Hgen) as [key [Hsec [Hk Htok]]].
    exists tokens, user,
      (mkClaims (u_id u) None None None None (Some (seconds (now sys))) None).
    split; [exact Hdata |].
    split; [| intros t'; split].
    + reflexivity.
    + rewrite Htok, Hsec, (verify_signed _ _ _ Hk). reflexivity.
    + unfold JwtService.verifyAccessToken, JwtService.with_secret,
        JwtService.getAccessSecret.
      rewrite Htok, Hsec, Hk, (verify_signed _ _ _ Hk). reflexivity.
  - exfalso. revert H200. unfold login, user_by_email in *. run.
    rewrite Hu. simpl. discriminate.
Qed.

Lemma login_access_token_never_expires_witness :
  exists tokens user claims,
    data (body (fst (login sample_env (at_time 3000) sample_request
                       (Some a_login) a_registered))) =
      Some (JObj [("user", user);
                  ("tokens", JObj [
                     ("accessToken", JToken (accessToken tokens));
                     ("refreshToken", JToken (newRefreshToken tokens))])]) /\
    c_exp claims = None /\
    forall t',
      jwt.verify (accessToken tokens) (JWT_SECRET sample_env) t' = inr claims /\
      JwtService.verifyAccessToken sample_env t' (accessToken tokens)
      = inr claims.
Proof.
  apply (login_access_token_never_expires sample_env (at_time 3000)
           sample_request a_login a_registered).
  reflexivity.
Defined.

(** The sample session, ten years on: the access token handed out at
    3 s still opens the profile route. *)
Example access_token_after_ten_years :
  status (fst (router sample_env (at_time 315360000000) (bearer a_access_0)
                 GetProfile a_logged_in)) = 200.
Proof. reflexivity. Qed.

(** * Further properties of the token issuer *)


Lemma getAccessSecret_set env s :
  JWT_SECRET env = Some s -> truthy s = true ->
  JwtService.getAccessSecret env = inr s.
Proof.
  intros H Hk. unfold JwtService.getAccessSecret. rewrite H, Hk. reflexivity.
Qed.

Lemma getRefreshSecret_set env s :
  JWT_REFRESH_SECRET env = Some s -> truthy s = true ->
  JwtService.getRefreshSecret env = inr s.
Proof.
  intros H Hk. unfold JwtService.getRefreshSecret. rewrite H, Hk. reflexivity.
Qed.

(** Signing a payload without [iat] for a readable time span. *)
Lemma sign_with_span payload key span t millis :
  truthy key = true ->
  c_iat payload = None ->
  ms span = Some millis ->
  jwt.sign payload (Some key) (Some span) t =
    inr (Signed (mkClaims (c_userId payload) (c_email payload) (c_role payload)
                   (c_sessionId payload) (c_type payload) (Some (seconds t))
                   (Some (seconds t + millis / 1000))) key).
Proof.
  intros Hk Hiat Hms. unfold jwt.sign, jwt.timespan.
  rewrite Hk, Hiat, Hms. reflexivity.
Qed.

Lemma verify_other_key claims key key' t :
  truthy key' = true -> key <> key' ->
  jwt.verify (Signed claims key) (Some key') t = inl (JwtThrown JsonWebTokenError).
Proof.
  intros Hk Hne. unfold jwt.verify. rewrite Hk. simpl.
  destruct (String.eqb key key') eqn:E; [| reflexivity].
  apply String.eqb_eq in E. contradiction.
Qed.





(** X3: the two token classes are told apart by the secret alone. With
    different secrets a token of [generateAccessToken] is an "Invalid
    refresh token" for [verifyRefreshToken] at any time; with one secret
    for both, [verifyRefreshToken] returns the access token's claims for
    as long as it is unexpired, since it does not look at [type]. *)
Theorem token_classes_differ_by_secret_only :
  forall env t uid email role sid token a r millis,
    JWT_SECRET env = Some a ->
    JWT_REFRESH_SECRET env = Some r ->
    truthy r = true ->
    ms (JwtService.getAccessExpiresIn env) = Some millis ->
    JwtService.generateAccessToken env t uid email role sid = inr token ->
    (a <> r ->
     forall t', JwtService.verifyRefreshToken env t' token
                = inl (ErrorThrown "Invalid refresh token")) /\
    (a = r ->
     forall t', seconds t' < seconds t + millis / 1000 ->
       JwtService.verifyRefreshToken env t' token =
         inr (mkClaims uid (Some email) (Some role) (Some sid) (Some "access")
                (Some (seconds t)) (Some (seconds t + millis / 1000)))).
Proof.
  intros env t uid email role sid token a r millis Ha Hr Hkr Hms.
  unfold JwtService.generateAccessToken, JwtService.rethrow,
    JwtService.with_secret.
  destruct (JwtService.getAccessSecret env) as [e | s] eqn:Hs; [discriminate |].
  destruct (getAccessSecret_ok env s Hs) as [Hsa Hk].
  assert (s = a) by congruence. subst s.
  erewrite sign_with_span by (exact Hk || reflexivity || exact Hms). simpl.
  intros H. inversion H. subst token. clear H.
  unfold JwtService.verifyRefreshToken, JwtService.with_secret.
  rewrite (getRefreshSecret_set env r Hr Hkr).
  split.
  - intros Hne t'. rewrite (verify_other_key _ _ _ _ Hkr Hne). reflexivity.
  - intros <- t' Ht'. rewrite (verify_signed _ _ _ Hk). simpl.
    replace (seconds t + millis / 1000 <=? seconds t') with false
      by (symmetry; apply Z.leb_gt; exact Ht').
    reflexivity.
Qed.

Lemma token_classes_differ_by_secret_only_witness :
  JwtService.verifyRefreshToken sample_env 5000
    (Signed (mkClaims 0%nat (Some "a@x.com") (Some "USER") (Some "s1")
               (Some "access") (Some 4) (Some 904))
       "access-secret-access-secret-0123")
  = inl (ErrorThrown "Invalid refresh token").
Proof.
  apply (proj1 (token_classes_differ_by_secret_only sample_env 4000 0%nat
                  "a@x.com" "USER" "s1" _ _ _ 900000
                  eq_refl eq_refl eq_refl eq_refl eq_refl)).
  intros H. discriminate H.
Defined.

Lemma verify_ok_iff token key t claims :
  jwt.verify token (Some key) t = inr claims <->
  token = Signed claims key /\ truthy key = true /\
  (forall e, c_exp claims = Some e -> seconds t < e).
Proof.
  split.
  - unfold jwt.verify. destruct token as [c k | s]; [| discriminate].
    destruct (truthy key) eqn:Hk; simpl; [| discriminate].
    destruct (String.eqb k key) eqn:E; simpl; [| discriminate].
    apply String.eqb_eq in E. subst k.
    destruct (c_exp c) as [e |] eqn:He.
    + destruct (e <=? seconds t) eqn:Hle; [discriminate |].
      intros H. inversion H. subst c. repeat split.
      intros e' He'. rewrite He in He'. inversion He'. subst e'.
      apply Z.leb_gt. exact Hle.
    + intros H. inversion H. subst c. repeat split.
      intros e' He'. rewrite He in He'. discriminate He'.
  - intros [-> [Hk Hexp]]. rewrite (verify_signed _ _ _ Hk).
    destruct (c_exp claims) as [e |]; [| reflexivity].
    replace (e <=? seconds t) with false; [reflexivity |].
    symmetry. apply Z.leb_gt. apply Hexp. reflexivity.
Qed.

Lemma has_type_iff claims ty :
  JwtService.has_type claims ty = true <-> c_type claims = Some ty.
Proof.
  unfold JwtService.has_type. destruct (c_type claims) as [x |].
  - rewrite String.eqb_eq. split; congruence.
  - split; discriminate.
Qed.

(** X4: [verifyPasswordResetToken] returns a result exactly for a token
    that is signed with the access secret, is unexpired and carries
    [type = "password_reset"]; what it returns are that token's [userId],
    [email] and [iat]. *)
Theorem verifyPasswordResetToken_accepts_iff :
  forall env t token uid email iat,
    JwtService.verifyPasswordResetToken env t token = inr (uid, email, iat) <->
    exists claims key,
      token = Signed claims key /\
      JWT_SECRET env = Some key /\ truthy key = true /\
      (forall e, c_exp claims = Some e -> seconds t < e) /\
      c_type claims = Some "password_reset" /\
      uid = c_userId claims /\ email = c_email claims /\ iat = c_iat claims.
Proof.
  intros env t token uid email iat.
  unfold JwtService.verifyPasswordResetToken, JwtService.with_secret. split.
  - destruct (JwtService.getAccessSecret env) as [e | key] eqn:Hs;
      [destruct e as [[] | | |]; discriminate |].
    destruct (getAccessSecret_ok env key Hs) as [Hsec Hk].
    destruct (jwt.verify token (Some key) t) as [e | claims] eqn:Hv;
      [destruct e as [[] | | |]; discriminate |].
    apply verify_ok_iff in Hv. destruct Hv as [-> [_ Hexp]].
    destruct (JwtService.has_type claims "password_reset") eqn:Hty;
      simpl; [| discriminate].
    apply has_type_iff in Hty.
    intros H. inversion H. exists claims, key. repeat split; auto.
  - intros [claims [key [-> [Hsec [Hk [Hexp [Hty [-> [-> ->]]]]]]]]].
    rewrite (getAccessSecret_set env key Hsec Hk).
    rewrite (proj2 (verify_ok_iff _ _ _ _) (conj eq_refl (conj Hk Hexp))).
    rewrite (proj2 (has_type_iff _ _) Hty). reflexivity.
Qed.

Lemma verifyPasswordResetToken_accepts_iff_witness :
  JwtService.verifyPasswordResetToken sample_env 5000 a_reset_jwt
  = inr (0%nat, Some "a@x.com", Some 1).
Proof.
  apply (proj2 (verifyPasswordResetToken_accepts_iff sample_env 5000
                  a_reset_jwt 0%nat (Some "a@x.com") (Some 1))).
  eexists. eexists. split; [reflexivity |].
  split; [reflexivity |]. split; [reflexivity |].
  split; [| repeat split].
  intros e H. inversion H. reflexivity.
Defined.

(** X5: [verifyEmailVerifyToken] returns a result exactly for a token
    that is signed with the access secret, is unexpired and carries
    [type = "email_verify"]; what it returns are that token's [userId]
    and [email]. *)
Theorem verifyEmailVerifyToken_accepts_iff :
  forall env t token uid email,
    JwtService.verifyEmailVerifyToken env t token = inr (uid, email) <->
    exists claims key,
      token = Signed claims key /\
      JWT_SECRET env = Some key /\ truthy key = true /\
      (forall e, c_exp claims = Some e -> seconds t < e) /\
      c_type claims = Some "email_verify" /\
      uid = c_userId claims /\ email = c_email claims.
Proof.
  intros env t token uid email.
  unfold JwtService.verifyEmailVerifyToken, JwtService.with_secret. split.
  - destruct (JwtService.getAccessSecret env) as [e | key] eqn:Hs;
      [destruct e as [[] | | |]; discriminate |].
    destruct (getAccessSecret_ok env key Hs) as [Hsec Hk].
    destruct (jwt.verify token (Some key) t) as [e | claims] eqn:Hv;
      [destruct e as [[] | | |]; discriminate |].
    apply verify_ok_iff in Hv. destruct Hv as [-> [_ Hexp]].
    destruct (JwtService.has_type claims "email_verify") eqn:Hty;
      simpl; [| discriminate].
    apply has_type_iff in Hty.
    intros H. inversion H. exists claims, key. repeat split; auto.
  - intros [claims [key [-> [Hsec [Hk [Hexp [Hty [-> ->]]]]]]]].
    rewrite (getAccessSecret_set env key Hsec Hk).
    rewrite (proj2 (verify_ok_iff _ _ _ _) (conj eq_refl (conj Hk Hexp))).
    rewrite (proj2 (has_type_iff _ _) Hty). reflexivity.
Qed.

Lemma verifyEmailVerifyToken_accepts_iff_witness :
  JwtService.verifyEmailVerifyToken sample_env 5000 a_verify_jwt
  = inr (0%nat, Some "a@x.com").
Proof.
  apply (proj2 (verifyEmailVerifyToken_accepts_iff sample_env 5000
                  a_verify_jwt 0%nat (Some "a@x.com"))).
  eexists. eexists. split; [reflexivity |].
  split; [reflexivity |]. split; [reflexivity |].
  split; [| repeat split].
  intros e H. inversion H. reflexivity.
Defined.

(** X6: the purpose tokens round-trip. A password-reset token verifies to
    the user id, the e-mail and the issue second it was made with for one
    hour and is "expired" from then on; an e-mail verification token
    verifies to its user id and e-mail for twenty-four hours. *)
Theorem purpose_tokens_round_trip :
  forall env t uid email,
    (forall token,
       JwtService.generatePasswordResetToken env t uid email = inr token ->
       (forall t', seconds t' < seconds t + 3600 ->
          JwtService.verifyPasswordResetToken env t' token
          = inr (uid, Some email, Some (seconds t))) /\
       (forall t', seconds t + 3600 <= seconds t' ->
          JwtService.verifyPasswordResetToken env t' token
          = inl (ErrorThrown "Password reset token expired"))) /\
    (forall token,
       JwtService.generateEmailVerifyToken env t uid email = inr token ->
       (forall t', seconds t' < seconds t + 86400 ->
          JwtService.verifyEmailVerifyToken env t' token
          = inr (uid, Some email)) /\
       (forall t', seconds t + 86400 <= seconds t' ->
          JwtService.verifyEmailVerifyToken env t' token
          = inl (ErrorThrown "Email verification token expired"))).
Proof.
  intros env t uid email. split; intros token.
  - unfold JwtService.generatePasswordResetToken, JwtService.rethrow,
      JwtService.with_secret.
    destruct (JwtService.getAccessSecret env) as [e | s] eqn:Hs;
      [discriminate |].
    destruct (getAccessSecret_ok env s Hs) as [_ Hk].
    unfold jwt.sign. rewrite Hk. simpl.
    change (3600000 / 1000) with 3600.
    intros H. inversion H. subst token. clear H.
    unfold JwtService.verifyPasswordResetToken, JwtService.with_secret.
    rewrite Hs.
    split; intros t' Ht'; rewrite (verify_signed _ _ _ Hk); simpl.
    + replace (seconds t + 3600 <=? seconds t') with false
        by (symmetry; apply Z.leb_gt; exact Ht').
      reflexivity.
    + replace (seconds t + 3600 <=? seconds t') with true
        by (symmetry; apply Z.leb_le; exact Ht').
      reflexivity.
  - unfold JwtService.generateEmailVerifyToken, JwtService.rethrow,
      JwtService.with_secret.
    destruct (JwtService.getAccessSecret env) as [e | s] eqn:Hs;
      [discriminate |].
    destruct (getAccessSecret_ok env s Hs) as [_ Hk].
    unfold jwt.sign. rewrite Hk. simpl.
    change (86400000 / 1000) with 86400.
    intros H. inversion H. subst token. clear H.
    unfold JwtService.verifyEmailVerifyToken, JwtService.with_secret.
    rewrite Hs.
    split; intros t' Ht'; rewrite (verify_signed _ _ _ Hk); simpl.
    + replace (seconds t + 86400 <=? seconds t') with false
        by (symmetry; apply Z.leb_gt; exact Ht').
      reflexivity.
    + replace (seconds t + 86400 <=? seconds t') with true
        by (symmetry; apply Z.leb_le; exact Ht').
      reflexivity.
Qed.

Lemma purpose_tokens_round_trip_witness :
  JwtService.verifyPasswordResetToken sample_env 3601000 a_reset_jwt
  = inl (ErrorThrown "Password reset token expired").
Proof.
  apply (proj2 (proj1 (purpose_tokens_round_trip sample_env 1000 0%nat
                         "a@x.com") a_reset_jwt eq_refl)).
  vm_compute. discriminate.
Defined.

(** X7: without an access secret ([JWT_SECRET] unset or empty) every
    generator that signs with it fails with its own "Failed to generate"
    message and every verifier with its "verification failed" message,
    whatever token it is given. *)
Theorem no_access_secret_no_tokens :
  forall env,
    JWT_SECRET env = None \/ JWT_SECRET env = Some "" ->
    (forall t uid email role sid,
       JwtService.generateAccessToken env t uid email role sid
       = inl (ErrorThrown "Failed to generate access token")) /\
    (forall t uid email,
       JwtService.generatePasswordResetToken env t uid email
       = inl (ErrorThrown "Failed to generate password reset token") /\
       JwtService.generateEmailVerifyToken env t uid email
       = inl (ErrorThrown "Failed to generate email verification token")) /\
    (forall t token,
       JwtService.verifyAccessToken env t token
       = inl (ErrorThrown "Access token verification failed") /\
       JwtService.verifyPasswordResetToken env t token
       = inl (ErrorThrown "Password reset token verification failed") /\
       JwtService.verifyEmailVerifyToken env t token
       = inl (ErrorThrown "Email verification token verification failed")).
Proof.
  intros env H.
  assert (exists m, JwtService.getAccessSecret env = inl (ErrorThrown m))
    as [m Hs].
  { unfold JwtService.getAccessSecret.
    destruct H as [-> | ->]; eexists; reflexivity. }
  unfold JwtService.generateAccessToken, JwtService.generatePasswordResetToken,
    JwtService.generateEmailVerifyToken, JwtService.verifyAccessToken,
    JwtService.verifyPasswordResetToken, JwtService.verifyEmailVerifyToken,
    JwtService.with_secret.
  rewrite Hs. repeat split.
Qed.

Lemma no_access_secret_no_tokens_witness :
  JwtService.verifyAccessToken (mkEnv None (Some "r") None None) 5000
    a_access_0
  = inl (ErrorThrown "Access token verification failed").
Proof.
  apply (no_access_secret_no_tokens (mkEnv None (Some "r") None None)
           (or_introl eq_refl)).
Defined.

(** ** The advertised lifetime *)

Lemma endsWith_snoc (d : string) (c c' : ascii) :
  endsWith (d ++ String c "")%string c' = Ascii.eqb c c'.
Proof.
  induction d as [| a d IH]; simpl; [reflexivity |].
  rewrite IH. destruct (d ++ String c "")%string eqn:E; [| reflexivity].
  destruct d; discriminate E.
Qed.

Lemma slice_last_snoc (d : string) (c : ascii) :
  slice_last (d ++ String c "")%string = d.
Proof.
  induction d as [| a d IH]; simpl; [reflexivity |].
  rewrite IH. destruct (d ++ String c "")%string eqn:E; [| reflexivity].
  destruct d; discriminate E.
Qed.

Lemma endsWith_digits (d : string) (c : ascii) :
  all_digits d = true -> digit_of c = None -> endsWith d c = false.
Proof.
  intros Hd Hc. induction d as [| a d IH]; simpl in *; [reflexivity |].
  destruct (digit_of a) eqn:Ha; [| discriminate].
  destruct d as [| b d'].
  - destruct (Ascii.eqb a c) eqn:E; [| reflexivity].
    apply Ascii.eqb_eq in E. subst. congruence.
  - apply IH. exact Hd.
Qed.

Lemma digit_not_space (c : ascii) (z : Z) :
  digit_of c = Some z -> is_space c = false.
Proof.
  unfold digit_of, is_space.
  destruct ((48 <=? nat_of_ascii c) && (nat_of_ascii c <=? 57))%nat eqn:E;
    [| discriminate].
  intros _. apply andb_prop in E. destruct E as [E1 E2].
  apply Nat.leb_le in E1. apply Nat.leb_le in E2.
  apply orb_false_iff. split.
  - apply andb_false_iff. right. apply Nat.leb_gt. lia.
  - apply Nat.eqb_neq. lia.
Qed.

Lemma read_digits_radix (d rest : string) (acc : option Z) :
  all_digits d = true ->
  match rest with
  | EmptyString => True
  | String c _ => digit_of c = None
  end ->
  read_digits acc (d ++ rest)%string = (read_radix 10 digit_of acc d, rest).
Proof.
  intros Hd Hrest. revert acc.
  induction d as [| a d IH]; simpl in *; intros acc.
  - destruct rest as [| c r]; [reflexivity |]. simpl. rewrite Hrest.
    reflexivity.
  - destruct (digit_of a); [| discriminate]. apply IH. exact Hd.
Qed.

(** On a non-empty string of decimal digits [parseInt] reads them all in
    base ten. *)
Lemma parseInt_digits (d : string) :
  all_digits d = true -> d <> ""%string ->
  parseInt d = read_radix 10 digit_of None d /\
  exists n, parseInt d = Some n /\ 0 <= n.
Proof.
  intros Hd Hne. destruct d as [| a d]; [contradiction |].
  simpl in Hd. destruct (digit_of a) as [z |] eqn:Ha; [| discriminate].
  assert (parseInt (String a d) = read_radix 10 digit_of None (String a d))
    as Hp.
  { unfold parseInt. simpl skip_spaces.
    rewrite (digit_not_space a z Ha).
    assert (a <> "-"%char /\ a <> "+"%char) as [Hm Hp].
    { split; intros ->; discriminate Ha. }
    assert (parse_unsigned (String a d)
            = read_radix 10 digit_of None (String a d)) as Hu.
    { unfold parse_unsigned.
      destruct d as [| b d']; [destruct a as [[] [] [] [] [] [] [] []];
                                reflexivity |].
      simpl in Hd. destruct (digit_of b) eqn:Hb; [| discriminate].
      assert (b <> "x"%char /\ b <> "X"%char) as [Hx HX].
      { split; intros ->; discriminate Hb. }
      destruct a as [[] [] [] [] [] [] [] []]; try reflexivity;
        destruct b as [[] [] [] [] [] [] [] []]; try reflexivity;
        contradiction. }
    destruct a as [[] [] [] [] [] [] [] []]; try exact Hu; contradiction. }
  split; [exact Hp |]. rewrite Hp.
  assert (forall s acc, all_digits s = true ->
            (forall a0, acc = Some a0 -> 0 <= a0) ->
            acc <> None ->
            exists n, read_radix 10 digit_of acc s = Some n /\ 0 <= n) as Hgen.
  { induction s as [| c s IH]; cbn [read_radix all_digits];
      intros acc Hs Hacc Hsome.
    - destruct acc as [a0 |]; [| contradiction].
      exists a0. split; [reflexivity | apply Hacc; reflexivity].
    - destruct (digit_of c) as [dz |] eqn:Hc; [| discriminate].
      apply IH; [exact Hs | | discriminate].
      intros a0 H0. injection H0 as <-.
      assert (0 <= dz).
      { unfold digit_of in Hc.
        destruct ((48 <=? nat_of_ascii c) && (nat_of_ascii c <=? 57))%nat;
          [| discriminate].
        inversion Hc. lia. }
      destruct acc as [a1 |].
      + specialize (Hacc a1 eq_refl).
        assert (0 <= 10 * a1 + dz) as H10 by lia. exact H10.
      + assert (0 <= 10 * 0 + dz) as H10 by lia. exact H10. }
  cbn [read_radix]. rewrite Ha. apply Hgen; [exact Hd | | discriminate].
  intros a0 H0. injection H0 as <-.
  unfold digit_of in Ha.
  destruct ((48 <=? nat_of_ascii a) && (nat_of_ascii a <=? 57))%nat;
    [| discriminate].
  inversion Ha. lia.
Qed.

Lemma unit_not_digit (u : ascii) (f : Z) :
  unit_seconds u = Some f -> digit_of u = None.
Proof.
  unfold unit_seconds.
  destruct (Ascii.eqb u "s") eqn:E1; [apply Ascii.eqb_eq in E1; subst; reflexivity |].
  destruct (Ascii.eqb u "m") eqn:E2; [apply Ascii.eqb_eq in E2; subst; reflexivity |].
  destruct (Ascii.eqb u "h") eqn:E3; [apply Ascii.eqb_eq in E3; subst; reflexivity |].
  destruct (Ascii.eqb u "d") eqn:E4; [apply Ascii.eqb_eq in E4; subst; reflexivity |].
  discriminate.
Qed.

Ltac unit_case :=
  cbn [String.eqb Ascii.eqb Bool.eqb option_map];
  first [reflexivity | f_equal; lia].

(** X8: for a lifetime written as decimal digits and one of the units
    [s], [m], [h], [d], [getExpiresInSeconds] reports the number times the
    unit, and that is the lifetime [jsonwebtoken] gives the access token:
    a token issued at second [i] verifies up to second [i + reported) and
    is expired from then on. Stated where JavaScript numbers are exact. *)
Theorem getExpiresInSeconds_is_token_lifetime :
  forall env d u n f,
    JWT_EXPIRES_IN env = Some (d ++ String u "")%string ->
    all_digits d = true -> d <> ""%string ->
    parseInt d = Some n ->
    unit_seconds u = Some f ->
    n * f * 1000 < 2 ^ 53 ->
    JwtService.getExpiresInSeconds env = Some (n * f) /\
    forall t uid email role sid token,
      JwtService.generateAccessToken env t uid email role sid = inr token ->
      (forall t', seconds t' < seconds t + n * f ->
         exists claims, JwtService.verifyAccessToken env t' token = inr claims) /\
      (forall t', seconds t + n * f <= seconds t' ->
         JwtService.verifyAccessToken env t' token
         = inl (ErrorThrown "Access token expired")).
Proof.
  intros env d u n f Henv Hd Hne Hn Hu _.
  pose proof (unit_not_digit u f Hu) as Hud.
  destruct (parseInt_digits d Hd Hne) as [Hp _].
  assert (JwtService.getAccessExpiresIn env = (d ++ String u "")%string) as Hin.
  { unfold JwtService.getAccessExpiresIn. rewrite Henv. unfold env_or.
    destruct (d ++ String u "")%string eqn:E; [| reflexivity].
    destruct d; discriminate E. }
  assert (ms (d ++ String u "")%string = Some (n * f * 1000)) as Hms.
  { unfold ms. rewrite (read_digits_radix d (String u "") None Hd Hud).
    rewrite <- Hp, Hn. revert Hu. unfold unit_seconds.
    destruct (Ascii.eqb u "s") eqn:E1.
    { apply Ascii.eqb_eq in E1. subst u. intros H. inversion H. unit_case. }
    destruct (Ascii.eqb u "m") eqn:E2.
    { apply Ascii.eqb_eq in E2. subst u. intros H. inversion H. unit_case. }
    destruct (Ascii.eqb u "h") eqn:E3.
    { apply Ascii.eqb_eq in E3. subst u. intros H. inversion H. unit_case. }
    destruct (Ascii.eqb u "d") eqn:E4.
    { apply Ascii.eqb_eq in E4. subst u. intros H. inversion H. unit_case. }
    discriminate. }
  split.
  - unfold JwtService.getExpiresInSeconds. rewrite Hin.
    rewrite !endsWith_snoc, slice_last_snoc, Hn. revert Hu.
    unfold unit_seconds.
    rewrite (Ascii.eqb_sym u "h"), (Ascii.eqb_sym u "m"),
      (Ascii.eqb_sym u "d"), (Ascii.eqb_sym u "s").
    destruct (Ascii.eqb "s" u) eqn:E1.
    { apply Ascii.eqb_eq in E1. subst u. intros H. inversion H. unit_case. }
    destruct (Ascii.eqb "m" u) eqn:E2.
    { apply Ascii.eqb_eq in E2. subst u. intros H. inversion H. unit_case. }
    destruct (Ascii.eqb "h" u) eqn:E3.
    { apply Ascii.eqb_eq in E3. subst u. intros H. inversion H. unit_case. }
    destruct (Ascii.eqb "d" u) eqn:E4.
    { apply Ascii.eqb_eq in E4. subst u. intros H. inversion H. unit_case. }
    discriminate.
  - intros t uid email role sid token Hgen.
    rewrite <- Hin in Hms.
    destruct (generateAccessToken_expires env t uid email role sid token _
                Hms Hgen) as [Hexp Hok].
    replace (n * f * 1000 / 1000) with (n * f) in *
      by (symmetry; apply Z.div_mul; lia).
    split.
    + intros t' Ht'. destruct (Hok t' Ht') as [claims [Hc _]].
      exists claims. exact Hc.
    + exact Hexp.
Qed.

Lemma getExpiresInSeconds_is_token_lifetime_witness :
  JwtService.getExpiresInSeconds env_2h = Some (2 * 3600).
Proof.
  apply (getExpiresInSeconds_is_token_lifetime env_2h "2" "h" 2 3600).
  - reflexivity.
  - reflexivity.
  - discriminate.
  - reflexivity.
  - reflexivity.
  - reflexivity.
Defined.

Lemma append_empty (d : string) : (d ++ "")%string = d.
Proof. induction d as [| a d IH]; simpl; [| rewrite IH]; reflexivity. Qed.

(** X9: a lifetime written as a bare number is read two ways.
    [getExpiresInSeconds] reports it as that many seconds, while
    [jsonwebtoken] takes the string for milliseconds: the access token is
    expired a thousandth of the reported time after it was issued. Stated
    where JavaScript numbers are exact. *)
Theorem bare_number_lifetime_is_milliseconds :
  forall env d n,
    JWT_EXPIRES_IN env = Some d ->
    all_digits d = true -> d <> ""%string ->
    parseInt d = Some n ->
    n < 2 ^ 53 ->
    JwtService.getExpiresInSeconds env = Some n /\
    forall t uid email role sid token,
      JwtService.generateAccessToken env t uid email role sid = inr token ->
      forall t', seconds t + n / 1000 <= seconds t' ->
        JwtService.verifyAccessToken env t' token
        = inl (ErrorThrown "Access token expired").
Proof.
  intros env d n Henv Hd Hne Hn _.
  destruct (parseInt_digits d Hd Hne) as [Hp _].
  assert (JwtService.getAccessExpiresIn env = d) as Hin.
  { unfold JwtService.getAccessExpiresIn. rewrite Henv. unfold env_or.
    destruct d; [contradiction | reflexivity]. }
  split.
  - unfold JwtService.getExpiresInSeconds. rewrite Hin.
    rewrite !endsWith_digits by (exact Hd || reflexivity). exact Hn.
  - intros t uid email role sid token Hgen.
    assert (ms (JwtService.getAccessExpiresIn env) = Some n) as Hms.
    { rewrite Hin. unfold ms. rewrite <- (append_empty d) at 1.
      rewrite (read_digits_radix d "" None Hd I), <- Hp, Hn. reflexivity. }
    exact (proj1 (generateAccessToken_expires env t uid email role sid token n
                    Hms Hgen)).
Qed.

Lemma bare_number_lifetime_is_milliseconds_witness :
  JwtService.getExpiresInSeconds env_3600 = Some 3600 /\
  JwtService.verifyAccessToken env_3600 8000
    (Signed (mkClaims 0%nat (Some "a@x.com") (Some "USER") (Some "s1")
               (Some "access") (Some 4) (Some 7))
       "access-secret-access-secret-0123")
  = inl (ErrorThrown "Access token expired").
Proof.
  pose proof (bare_number_lifetime_is_milliseconds env_3600 "3600" 3600
                eq_refl eq_refl) as H.
  destruct H as [H1 H2]; [discriminate | reflexivity | reflexivity |].
  split; [exact H1 |].
  apply (H2 4000 0%nat "a@x.com" "USER" "s1" _ eq_refl).
  vm_compute. discriminate.
Defined.

(** * Further properties of the request gate *)

(** X10: [authMiddleware] calls [next()] exactly when the header is a
    bearer token that [jwt.verify] accepts under the access secret and
    whose [userId] names an active user; what it attaches is that user's
    row without the password. *)
Theorem authMiddleware_admits_iff :
  forall env sys req db a,
    authMiddleware env sys req db = Next a <->
    exists token claims u,
      req_authorization req = Some (Bearer token) /\
      jwt.verify token (JWT_SECRET env) (now sys) = inr claims /\
      find (fun x => Nat.eqb (u_id x) (c_userId claims)) (users db) = Some u /\
      u_isActive u = true /\
      a = select_user u.
Proof.
  intros env sys req db a. split.
  - unfold authMiddleware, prisma.user_findUnique_id. simpl.
    destruct (req_authorization req) as [[token | other] |];
      [| discriminate | discriminate].
    destruct (jwt.verify token (JWT_SECRET env) (now sys))
      as [e | claims] eqn:Hv.
    { destruct e as [[] | | |]; discriminate. }
    destruct (find _ (users db)) as [u |] eqn:Hu; [| discriminate].
    destruct (u_isActive u) eqn:Ha; simpl; [| discriminate].
    intros H. inversion H. exists token, claims, u. repeat split; auto.
  - intros [token [claims [u [Hh [Hv [Hu [Ha ->]]]]]]].
    apply (authMiddleware_accepts env sys req db token claims u Hh Hv Hu Ha).
Qed.

Lemma authMiddleware_admits_iff_witness :
  authMiddleware sample_env (at_time 9000) (bearer a_access_0) a_registered
  = Next (select_user a_row).
Proof.
  apply (proj2 (authMiddleware_admits_iff sample_env (at_time 9000)
                  (bearer a_access_0) a_registered (select_user a_row))).
  exists a_access_0.
  exists (mkClaims 0%nat None None None None (Some 3) None).
  exists a_row. repeat split.
Defined.

(** X11: a deactivated account is locked out of the protected routes:
    with a token that verifies, [GET /profile], [PUT /profile] and
    [PUT /change-password] answer 403 "Account is deactivated" and leave
    the store untouched. *)
Theorem deactivated_account_locked_out :
  forall env sys req db token claims u call,
    req_authorization req = Some (Bearer token) ->
    jwt.verify token (JWT_SECRET env) (now sys) = inr claims ->
    find (fun x => Nat.eqb (u_id x) (c_userId claims)) (users db) = Some u ->
    u_isActive u = false ->
    (call = GetProfile \/ (exists p, call = PutProfile p) \/
     (exists p, call = PutChangePassword p)) ->
    router env sys req call db =
      (mkResponse 403 (createErrorResponse (now sys) "Account is deactivated"
                         AUTH_ACCOUNT_DEACTIVATED), db).
Proof.
  intros env sys req db token claims u call Hh Hv Hu Ha Hcall.
  assert (authMiddleware env sys req db =
          Rejected (mkResponse 403 (createErrorResponse (now sys)
                      "Account is deactivated" AUTH_ACCOUNT_DEACTIVATED)))
    as Hgate.
  { unfold authMiddleware, prisma.user_findUnique_id. rewrite Hh, Hv. simpl.
    rewrite Hu, Ha. reflexivity. }
  destruct Hcall as [-> | [[p ->] | [p ->]]];
    unfold router, protected; rewrite Hgate; reflexivity.
Qed.

Lemma deactivated_account_locked_out_witness :
  router sample_env (at_time 9000) (bearer a_access_0)
    (PutChangePassword (Some (mkChangePasswordSchema "Passw0rd1" "N3wPassw0rd")))
    a_deactivated
  = (mkResponse 403 (createErrorResponse 9000 "Account is deactivated"
                       AUTH_ACCOUNT_DEACTIVATED), a_deactivated).
Proof.
  apply (deactivated_account_locked_out sample_env (at_time 9000)
           (bearer a_access_0) a_deactivated a_access_0
           (mkClaims 0%nat None None None None (Some 3) None)
           (deactivate a_row)).
  - reflexivity.
  - reflexivity.
  - reflexivity.
  - reflexivity.
  - right. right. eexists. reflexivity.
Defined.

(** X12: the optional gate performs the same checks as the required one:
    it attaches a user exactly when [authMiddleware] would call [next()],
    the same user, and attaches nothing when [authMiddleware] would
    answer. *)
Theorem optionalAuthMiddleware_agrees :
  forall env sys req db,
    optionalAuthMiddleware env sys req db =
      match authMiddleware env sys req db with
      | Next a => Some a
      | Rejected _ => None
      end.
Proof.
  intros env sys req db.
  unfold optionalAuthMiddleware, authMiddleware, prisma.user_findUnique_id.
  simpl.
  destruct (req_authorization req) as [[token | other] |];
    [| reflexivity | reflexivity].
  destruct (jwt.verify token (JWT_SECRET env) (now sys)) as [e | claims].
  { destruct e as [[] | | |]; reflexivity. }
  destruct (find _ (users db)) as [u |]; [| reflexivity].
  destruct (u_isActive u); reflexivity.
Qed.

Lemma includes_In (l : list string) (x : string) :
  includes l x = true <-> In x l.
Proof.
  unfold includes. rewrite existsb_exists. split.
  - intros [y [Hy E]]. apply String.eqb_eq in E. subst. exact Hy.
  - intros H. exists x. split; [exact H | apply String.eqb_refl].
Qed.

(** X13: [requireRole] lets a request through exactly when a user is
    attached whose role, spelled as in the schema, is among the allowed
    ones; a single role given as a string counts as the one-element
    list. *)
Theorem requireRole_allows_iff :
  forall code allowedRoles sys user,
    requireRole code allowedRoles sys user = Allowed <->
    exists u,
      user = Some u /\
      match allowedRoles with
      | RoleList l => In (role_name (a_role u)) l
      | OneRole r => role_name (a_role u) = r
      end.
Proof.
  intros code allowedRoles sys user. unfold requireRole. split.
  - destruct user as [u |]; [| discriminate].
    destruct (includes _ _) eqn:E; simpl; [| discriminate].
    intros _. exists u. split; [reflexivity |].
    apply includes_In in E. destruct allowedRoles as [r | l].
    + destruct E as [E | []]. symmetry. exact E.
    + exact E.
  - intros [u [-> H]].
    assert (includes match allowedRoles with
                     | OneRole r => [r]
                     | RoleList l => l
                     end (role_name (a_role u)) = true) as E.
    { apply includes_In. destruct allowedRoles as [r | l].
      - left. symmetry. exact H.
      - exact H. }
    rewrite E. reflexivity.
Qed.

Lemma requireRole_allows_iff_witness :
  requireRole AUTH_TOKEN_INVALID (OneRole "MODERATOR") (at_time 9000)
    (Some a_moderator) = Allowed.
Proof.
  apply (proj2 (requireRole_allows_iff AUTH_TOKEN_INVALID (OneRole "MODERATOR")
                  (at_time 9000) (Some a_moderator))).
  exists a_moderator. split; reflexivity.
Defined.

(** X14: the two ready-made role gates. [requireAdmin] admits
    administrators only, [requireModerator] administrators and
    moderators, so whoever passes [requireAdmin] passes
    [requireModerator]; a plain user is answered 403 by both, a request
    without a user 401. *)
Theorem role_gates_hierarchy :
  forall code sys,
    (forall u,
       (requireAdmin code sys (Some u) = Allowed <-> a_role u = ADMIN) /\
       (requireModerator code sys (Some u) = Allowed <->
        a_role u = ADMIN \/ a_role u = MODERATOR) /\
       (requireAdmin code sys (Some u) = Allowed ->
        requireModerator code sys (Some u) = Allowed) /\
       (a_role u = USER ->
        requireAdmin code sys (Some u) = requireModerator code sys (Some u) /\
        exists r, requireAdmin code sys (Some u) = Denied r /\ status r = 403)) /\
    exists r,
      requireAdmin code sys None = Denied r /\
      requireModerator code sys None = Denied r /\ status r = 401.
Proof.
  intros code sys. split.
  - intros u. unfold requireAdmin, requireModerator, requireRole.
    destruct (a_role u); simpl; repeat split; intros;
      try discriminate; try reflexivity; auto;
      try (match goal with H : _ \/ _ |- _ => destruct H; discriminate end).
    eexists. split; reflexivity.
  - eexists. repeat split.
Qed.

Lemma role_gates_hierarchy_witness :
  requireModerator AUTH_TOKEN_INVALID (at_time 9000) (Some an_admin) = Allowed.
Proof.
  apply (proj1 (proj2 (proj2 (proj1 (role_gates_hierarchy AUTH_TOKEN_INVALID
                                       (at_time 9000)) an_admin)))).
  reflexivity.
Defined.

Lemma select_user_verified d u :
  d_isEmailVerified d = Some true ->
  a_isEmailVerified (select_user (apply_data d u)) = true.
Proof. intros H. simpl. rewrite H. reflexivity. Qed.

(** X15: verification opens the verification gate. After [verifyEmail]
    has accepted a pending, unexpired token, every request that
    [authMiddleware] admits as the user the token belongs to passes
    [requireEmailVerification]. *)
Theorem verified_user_passes_verification_gate :
  forall code sys token db v env sys' req a,
    wf_store db ->
    stored_verification token db = Some v ->
    ev_status v = PENDING ->
    now sys <= ev_expiresAt v ->
    authMiddleware env sys' req (snd (verifyEmail sys token db)) = Next a ->
    a_id a = ev_userId v ->
    requireEmailVerification code sys' (Some a) = Allowed.
Proof.
  intros code sys token db v env sys' req a Hwf Hfind Hst Hexp Hgate Hid.
  rewrite (verifyEmail_pending sys token db v Hwf Hfind Hst Hexp) in Hgate.
  unfold authMiddleware, prisma.user_findUnique_id in Hgate. simpl in Hgate.
  destruct (req_authorization req) as [[tok | other] |];
    [| discriminate | discriminate].
  destruct (jwt.verify tok (JWT_SECRET env) (now sys')) as [e | claims].
  { destruct e as [[] | | |]; discriminate. }
  rewrite find_map_same in Hgate
    by (intros x; destruct (Nat.eqb (u_id x) (ev_userId v)); reflexivity).
  destruct (find _ (users db)) as [u |]; simpl in Hgate; [| discriminate].
  destruct (Nat.eqb (u_id u) (ev_userId v)) eqn:E.
  - destruct (u_isActive (apply_data verified_data u)); simpl in Hgate;
      [| discriminate].
    inversion Hgate. reflexivity.
  - destruct (u_isActive u); simpl in Hgate; [| discriminate].
    inversion Hgate. subst a. simpl in Hid.
    apply Nat.eqb_neq in E. contradiction.
Qed.

Lemma verified_user_passes_verification_gate_witness :
  requireEmailVerification AUTH_TOKEN_INVALID (at_time 9000)
    (Some (select_user (apply_data verified_data a_row))) = Allowed.
Proof.
  apply (verified_user_passes_verification_gate AUTH_TOKEN_INVALID
           (at_time 2000) "5f2a9c" a_registered a_verification sample_env
           (at_time 9000) (bearer a_access_0)
           (select_user (apply_data verified_data a_row))).
  - apply wf_storeb_sound. reflexivity.
  - reflexivity.
  - reflexivity.
  - vm_compute. discriminate.
  - reflexivity.
  - reflexivity.
Defined.

(** * Further properties of the controller *)

Lemma user_exists_app id us u db :
  users db = us ++ [u] -> u_id u = id -> prisma.user_exists id db = true.
Proof.
  intros Hu Hid. unfold prisma.user_exists. rewrite Hu, existsb_app. simpl.
  rewrite Hid, Nat.eqb_refl. apply orb_true_iff. right. reflexivity.
Qed.

(** X16: a registration that answers 201 has written exactly three rows:
    the user, with the lower-cased e-mail, the hash of the password,
    role [USER], active and unverified; a [PENDING] verification for that
    user carrying the random token, valid twenty-four hours; and an audit
    row [REGISTRATION_PENDING_VERIFICATION]. Nothing else changes. *)
Theorem register_created_rows :
  forall sys req data db,
    status (fst (register sys req (Some data) db)) = 201 ->
    snd (register sys req (Some data) db) = registered sys req data db /\
    user_by_email (rs_email data) db = None /\
    stored_verification (randomBytes sys) db = None.
Proof.
  intros sys req data db. unfold register, user_by_email, stored_verification.
  run.
  destruct (find _ (users db)) eqn:Hmail; [simpl; discriminate |].
  match goal with
  | |- context [match ?m db with _ => _ end] =>
      assert (snd (m db) = db) as Hread
        by (destruct (rs_username data) as [n |];
            [destruct (truthy n) |]; reflexivity);
      destruct (m db) as [[e | existing] db0]
  end; [simpl; discriminate |].
  simpl in Hread. subst db0.
  destruct existing; [simpl; discriminate |].
  unfold prisma.user_create.
  destruct (_ || _); run; [simpl; discriminate |].
  unfold prisma.emailVerification_create. cbn [emailVerifications].
  rewrite existsb_find.
  destruct (find _ (emailVerifications db)) eqn:Htok; run;
    [simpl; discriminate |].
  match goal with
  | |- context [prisma.user_exists ?i ?s] =>
      rewrite (user_exists_app i (users db)
                 (registered_user sys data db) s eq_refl eq_refl)
  end.
  run.
  match goal with
  | |- context [logLoginAttempt ?a (Some ?i) ?c ?d ?e ?s] =>
      rewrite (logLoginAttempt_known a i c d e s
                 (user_exists_app i (users db)
                    (registered_user sys data db) s eq_refl eq_refl))
  end.
  run. intros _. repeat split.
Qed.

Lemma register_created_rows_witness :
  snd (register (at_time 1000) sample_request
         (Some (mkRegisterSchema "a@x.com" "Passw0rd1" None None None))
         empty_store)
  = registered (at_time 1000) sample_request
      (mkRegisterSchema "a@x.com" "Passw0rd1" None None None) empty_store.
Proof.
  apply (register_created_rows (at_time 1000) sample_request
           (mkRegisterSchema "a@x.com" "Passw0rd1" None None None)
           empty_store).
  reflexivity.
Defined.

(** X17: when the e-mail is free but the requested user name belongs to a
    row, [register] answers 409 with code [AUTH_USERNAME_TAKEN] and writes
    nothing. *)
Theorem register_username_taken :
  forall sys req data db name other,
    user_by_email (rs_email data) db = None ->
    rs_username data = Some name ->
    truthy name = true ->
    In other (users db) ->
    u_username other = Some name ->
    register sys req (Some data) db =
      (mkResponse 409 (createErrorResponse (now sys) "Username already taken"
                         AUTH_USERNAME_TAKEN), db).
Proof.
  intros sys req data db name other Hmail Hname Htruthy Hin Hother.
  unfold user_by_email in Hmail. unfold register. run.
  rewrite Hmail, Hname, Htruthy. run.
  destruct (find (fun u => prisma.opt_eqb (u_username u) name) (users db))
    eqn:Hf; [reflexivity |].
  apply find_none with (x := other) in Hf; [| exact Hin].
  unfold prisma.opt_eqb in Hf. rewrite Hother, String.eqb_refl in Hf.
  discriminate Hf.
Qed.

Lemma register_username_taken_witness :
  register (at_time 7000) sample_request
    (Some (mkRegisterSchema "b@x.com" "Passw0rd2" None None (Some "alice")))
    a_named
  = (mkResponse 409 (createErrorResponse 7000 "Username already taken"
                       AUTH_USERNAME_TAKEN), a_named).
Proof.
  apply (register_username_taken (at_time 7000) sample_request
           (mkRegisterSchema "b@x.com" "Passw0rd2" None None (Some "alice"))
           a_named "alice" a_named_row).
  - reflexivity.
  - reflexivity.
  - reflexivity.
  - left. reflexivity.
  - reflexivity.
Defined.






(** X20: logging out ends the session for good. Once [logout] was called
    with the token string of a stored row, the refresh endpoint refuses
    that token (HTTP 401) and writes nothing, whatever requests were
    served in between. *)
Theorem logout_then_refresh_refused :
  forall sys token db r env later sys',
    stored_refreshToken token db = Some r ->
    token_truthy token = true ->
    let db' := serve_all env later (snd (logout sys (Some token) db)) in
    refused_401 (fst (refreshToken env sys' (Some token) db')) /\
    snd (refreshToken env sys' (Some token) db') = db'.
Proof.
  intros sys token db r env later sys' Hrow Htruthy db'.
  apply refreshToken_revoked_refused. unfold db'. apply revoked_forever.
  rewrite logout_store, Htruthy.
  exists (prisma.revoke r). split; [| reflexivity].
  unfold stored_refreshToken in *. simpl.
  rewrite find_map_same, Hrow.
  - simpl. apply find_some in Hrow. destruct Hrow as [_ E]. rewrite E.
    reflexivity.
  - intros x. destruct (Token_eqb (rt_token x) token) eqn:E;
      simpl; rewrite ?E; reflexivity.
Qed.

Lemma logout_then_refresh_refused_witness :
  refused_401
    (fst (refreshToken sample_env (at_time 9000) (Some a_refresh_0)
            (serve_all sample_env
               [mkIncoming (at_time 8500) sample_request
                  (PostLogin (Some a_login))]
               (snd (logout (at_time 8000) (Some a_refresh_0) a_logged_in))))).
Proof.
  apply (logout_then_refresh_refused (at_time 8000) a_refresh_0 a_logged_in
           a_session_0 sample_env
           [mkIncoming (at_time 8500) sample_request (PostLogin (Some a_login))]
           (at_time 9000)).
  - reflexivity.
  - reflexivity.
Defined.



(** X22: [changePassword] with a wrong current password answers 400 with
    code [AUTH_INVALID_PASSWORD] and changes nothing: the hash stays and
    no refresh token is revoked. *)
Theorem changePassword_wrong_current :
  forall sys user data db stored,
    find (fun u => Nat.eqb (u_id u) (a_id user)) (users db) = Some stored ->
    bcrypt.compare (cp_currentPassword data) (u_password stored) = false ->
    changePassword sys user (Some data) db =
      (mkResponse 400 (createErrorResponse (now sys)
         "Current password is incorrect" AUTH_INVALID_PASSWORD), db).
Proof.
  intros sys user data db stored Hfind Hc.
  unfold changePassword. run. rewrite Hfind, Hc. reflexivity.
Qed.

Lemma changePassword_wrong_current_witness :
  changePassword (at_time 6000) a_user
    (Some (mkChangePasswordSchema "guess" "N3wPassw0rd")) a_logged_in
  = (mkResponse 400 (createErrorResponse 6000
       "Current password is incorrect" AUTH_INVALID_PASSWORD), a_logged_in).
Proof.
  apply (changePassword_wrong_current (at_time 6000) a_user
           (mkChangePasswordSchema "guess" "N3wPassw0rd") a_logged_in
           (apply_data (mkUserData None None None None None None (Some 3000))
              a_row)).
  - reflexivity.
  - reflexivity.
Defined.

(** What a password change that answers 200 has written. *)
Lemma changePassword_ok_store sys user parsed db :
  status (fst (changePassword sys user parsed db)) = 200 ->
  exists data stored,
    parsed = Some data /\
    find (fun u => Nat.eqb (u_id u) (a_id user)) (users db) = Some stored /\
    bcrypt.compare (cp_currentPassword data) (u_password stored) = true /\
    snd (changePassword sys user parsed db) =
      mkStore
        (map (fun x => if Nat.eqb (u_id x) (a_id user)
                       then apply_data
                              (mkUserData None
                                 (Some (bcrypt.hash (cp_newPassword data)
                                          (salt sys)))
                                 None None None None None) x
                       else x) (users db))
        (loginLogs db) (emailVerifications db)
        (map (fun x => if Nat.eqb (rt_userId x) (a_id user)
                       then prisma.revoke x else x) (refreshTokens db))
        (nextId db).
Proof.
  unfold changePassword. run.
  destruct parsed as [data |]; [| simpl; discriminate].
  destruct (find (fun u => Nat.eqb (u_id u) (a_id user)) (users db))
    as [stored |] eqn:Hfind; [| simpl; discriminate].
  destruct (bcrypt.compare (cp_currentPassword data) (u_password stored))
    eqn:Hc; run; [| simpl; discriminate].
  unfold prisma.user_update. rewrite Hfind.
  cbn [prisma.username_taken d_username]. run.
  intros _. exists data, stored. repeat split; auto.
Qed.



Lemma select_user_password h u :
  select_user
    (apply_data (mkUserData None (Some h) None None None None None) u)
  = select_user u.
Proof. destruct u; reflexivity. Qed.

(** X24: a password change revokes refresh tokens only. Whatever it
    answers, the request gate treats every request afterwards exactly as
    it did before: an access token that was admitted is still admitted,
    with the same attached user. *)
Theorem changePassword_keeps_access_tokens :
  forall sys user parsed db env sys' req,
    authMiddleware env sys' req (snd (changePassword sys user parsed db))
    = authMiddleware env sys' req db.
Proof.
  intros sys user parsed db env sys' req.
  assert (forall id,
            option_map select_user
              (find (fun x => Nat.eqb (u_id x) id)
                 (users (snd (changePassword sys user parsed db))))
            = option_map select_user
                (find (fun x => Nat.eqb (u_id x) id) (users db))
            /\
            option_map u_isActive
              (find (fun x => Nat.eqb (u_id x) id)
                 (users (snd (changePassword sys user parsed db))))
            = option_map u_isActive
                (find (fun x => Nat.eqb (u_id x) id) (users db))) as Hsame.
  { intros id.
    destruct (Z.eq_dec (status (fst (changePassword sys user parsed db))) 200)
      as [H200 | Hno].
    - destruct (changePassword_ok_store sys user parsed db H200)
        as [data [stored [_ [_ [_ Hout]]]]].
      rewrite Hout. simpl.
      rewrite find_map_same
        by (intros x; destruct (Nat.eqb (u_id x) (a_id user)); reflexivity).
      destruct (find _ (users db)) as [u |]; [| split; reflexivity].
      simpl. destruct (Nat.eqb (u_id u) (a_id user)); [| split; reflexivity].
      rewrite select_user_password. split; reflexivity.
    - assert (snd (changePassword sys user parsed db) = db) as ->;
        [| split; reflexivity].
      revert Hno. unfold changePassword. run.
      destruct parsed as [data |]; [| reflexivity].
      destruct (find _ (users db)) as [stored |] eqn:Hfind; [| reflexivity].
      destruct (bcrypt.compare _ _); run; [| reflexivity].
      unfold prisma.user_update. rewrite Hfind.
      cbn [prisma.username_taken d_username]. run.
      intros H. exfalso. apply H. reflexivity. }
  unfold authMiddleware, prisma.user_findUnique_id. simpl.
  destruct (req_authorization req) as [[token | other] |];
    [| reflexivity | reflexivity].
  destruct (jwt.verify token (JWT_SECRET env) (now sys')) as [e | claims];
    [reflexivity |].
  destruct (Hsame (c_userId claims)) as [H1 H2].
  destruct (find _ (users (snd (changePassword sys user parsed db))))
    as [u1 |];
    destruct (find _ (users db)) as [u0 |];
    simpl in H1, H2; try discriminate; [| reflexivity].
  assert (select_user u1 = select_user u0) as E1 by congruence.
  assert (u_isActive u1 = u_isActive u0) as E2 by congruence.
  rewrite E1, E2. reflexivity.
Qed.

(** X25: [updateProfile] refuses a user name that another account holds:
    when the requested name differs from the caller's and the row found
    under it is not the caller's, the answer is 409 with code
    [AUTH_USERNAME_TAKEN] and nothing is written. *)
Theorem updateProfile_username_taken :
  forall sys user data db name other,
    up_username data = Some name ->
    a_username user <> Some name ->
    find (fun u => prisma.opt_eqb (u_username u) name) (users db) = Some other ->
    u_id other <> a_id user ->
    updateProfile sys user (Some data) db =
      (mkResponse 409 (createErrorResponse (now sys) "Username already taken"
                         AUTH_USERNAME_TAKEN), db).
Proof.
  intros sys user data db name other Hname Hown Hfind Hid.
  unfold updateProfile. run. rewrite Hname.
  assert (option_string_eqb (Some name) (a_username user) = false) as Hne.
  { unfold option_string_eqb. destruct (a_username user) as [n |];
      [| reflexivity].
    apply String.eqb_neq. intros ->. contradiction. }
  rewrite Hne. run. rewrite Hfind.
  replace (Nat.eqb (u_id other) (a_id user)) with false
    by (symmetry; apply Nat.eqb_neq; exact Hid).
  reflexivity.
Qed.

Lemma updateProfile_username_taken_witness :
  updateProfile (at_time 7000) b_user
    (Some (mkUpdateProfileSchema None None (Some "alice") None)) ab_registered
  = (mkResponse 409 (createErrorResponse 7000 "Username already taken"
                       AUTH_USERNAME_TAKEN), ab_registered).
Proof.
  apply (updateProfile_username_taken (at_time 7000) b_user
           (mkUpdateProfileSchema None None (Some "alice") None)
           ab_registered "alice" a_named_row).
  - reflexivity.
  - discriminate.
  - reflexivity.
  - discriminate.
Defined.

(** X26: a profile update that answers 200 touches the caller's row
    only, and in it only the first name, last name, avatar and user
    name: every row keeps its id, e-mail, password hash, role, active
    flag and verification flag, the rows of other users are unchanged,
    no row is added or removed, and the other tables stay as they
    were. *)
Theorem updateProfile_touches_profile_only :
  forall sys user parsed db,
    status (fst (updateProfile sys user parsed db)) = 200 ->
    let db' := snd (updateProfile sys user parsed db) in
    loginLogs db' = loginLogs db /\
    emailVerifications db' = emailVerifications db /\
    refreshTokens db' = refreshTokens db /\
    nextId db' = nextId db /\
    Forall2
      (fun x x' =>
         u_id x' = u_id x /\ u_email x' = u_email x /\
         u_password x' = u_password x /\ u_role x' = u_role x /\
         u_isActive x' = u_isActive x /\
         u_isEmailVerified x' = u_isEmailVerified x /\
         (u_id x <> a_id user -> x' = x))
      (users db) (users db').
Proof.
  intros sys user parsed db.
  assert (forall d,
            d_password d = None -> d_isEmailVerified d = None ->
            forall l : list User,
              Forall2
                (fun x x' =>
                   u_id x' = u_id x /\ u_email x' = u_email x /\
                   u_password x' = u_password x /\ u_role x' = u_role x /\
                   u_isActive x' = u_isActive x /\
                   u_isEmailVerified x' = u_isEmailVerified x /\
                   (u_id x <> a_id user -> x' = x))
                l (map (fun x => if Nat.eqb (u_id x) (a_id user)
                                 then apply_data d x else x) l)) as Hmap.
  { intros d Hp Hv. induction l as [| a l IH]; simpl; constructor; [| exact IH].
    destruct (Nat.eqb (u_id a) (a_id user)) eqn:E.
    - simpl. rewrite Hp, Hv. repeat split.
      intros Hne. apply Nat.eqb_eq in E. contradiction.
    - repeat split. }
  assert (forall newUsername data,
            status (fst (handle
              (updatedUser <- prisma.user_update (a_id user)
                 (mkUserData newUsername None (up_firstName data)
                    (up_lastName data) (up_avatar data) None None) ;;
               ret (mkResponse 200 (createSuccessResponse (now sys)
                      (JObj [("user", JObj [
                         ("id", JNum (Z.of_nat (u_id updatedUser)));
                         ("email", JStr (u_email updatedUser));
                         ("firstName", json_opt (u_firstName updatedUser));
                         ("lastName", json_opt (u_lastName updatedUser));
                         ("username", json_opt (u_username updatedUser));
                         ("avatar", json_opt (u_avatar updatedUser));
                         ("role", json_role (u_role updatedUser));
                         ("isEmailVerified", JBool (u_isEmailVerified updatedUser));
                         ("lastLoginAt", json_date (u_lastLoginAt updatedUser));
                         ("updatedAt", JNum (u_updatedAt updatedUser))])])
                      "Profile updated successfully" "PROFILE_UPDATE_SUCCESS")))
              (internal_error (now sys)) db)) = 200 ->
            let db' := snd (handle
              (updatedUser <- prisma.user_update (a_id user)
                 (mkUserData newUsername None (up_firstName data)
                    (up_lastName data) (up_avatar data) None None) ;;
               ret (mkResponse 200 (createSuccessResponse (now sys)
                      (JObj [("user", JObj [
                         ("id", JNum (Z.of_nat (u_id updatedUser)));
                         ("email", JStr (u_email updatedUser));
                         ("firstName", json_opt (u_firstName updatedUser));
                         ("lastName", json_opt (u_lastName updatedUser));
                         ("username", json_opt (u_username updatedUser));
                         ("avatar", json_opt (u_avatar updatedUser));
                         ("role", json_role (u_role updatedUser));
                         ("isEmailVerified", JBool (u_isEmailVerified updatedUser));
                         ("lastLoginAt", json_date (u_lastLoginAt updatedUser));
                         ("updatedAt", JNum (u_updatedAt updatedUser))])])
                      "Profile updated successfully" "PROFILE_UPDATE_SUCCESS")))
              (internal_error (now sys)) db) in
            loginLogs db' = loginLogs db /\
            emailVerifications db' = emailVerifications db /\
            refreshTokens db' = refreshTokens db /\
            nextId db' = nextId db /\
            Forall2
              (fun x x' =>
                 u_id x' = u_id x /\ u_email x' = u_email x /\
                 u_password x' = u_password x /\ u_role x' = u_role x /\
                 u_isActive x' = u_isActive x /\
                 u_isEmailVerified x' = u_isEmailVerified x /\
                 (u_id x <> a_id user -> x' = x))
              (users db) (users db')) as Hcont.
  { intros newUsername data. run. unfold prisma.user_update.
    destruct (find _ (users db)); [| simpl; discriminate].
    destruct (prisma.username_taken _ _); run; [simpl; discriminate |].
    intros _. simpl. repeat split. apply Hmap; reflexivity. }
  unfold updateProfile.
  destruct parsed as [data |]; [| run; simpl; discriminate].
  cbv beta iota zeta delta [validation_request].
  destruct (up_username data) as [name |] eqn:Hname.
  - destruct (option_string_eqb (Some name) (a_username user)) eqn:Hsame.
    + specialize (Hcont None data). revert Hcont. run.
      rewrite Hname, Hsame. run. exact (fun H => H).
    + pose proof (Hcont (Some name) data) as Hc. revert Hc. run.
      rewrite Hname, Hsame. run.
      destruct (find (fun u => prisma.opt_eqb (u_username u) name) (users db))
        as [other |].
      * destruct (Nat.eqb (u_id other) (a_id user)); run;
          [exact (fun H => H) | simpl; discriminate].
      * exact (fun H => H).
  - specialize (Hcont None data). revert Hcont. run.
    rewrite Hname. exact (fun H => H).
Qed.

Lemma updateProfile_touches_profile_only_witness :
  let db' := snd (updateProfile (at_time 4000) a_user
                    (Some (mkUpdateProfileSchema (Some "Al") None None None))
                    a_registered) in
  loginLogs db' = loginLogs a_registered /\
  emailVerifications db' = emailVerifications a_registered /\
  refreshTokens db' = refreshTokens a_registered /\
  nextId db' = nextId a_registered /\
  Forall2
    (fun x x' =>
       u_id x' = u_id x /\ u_email x' = u_email x /\
       u_password x' = u_password x /\ u_role x' = u_role x /\
       u_isActive x' = u_isActive x /\
       u_isEmailVerified x' = u_isEmailVerified x /\
       (u_id x <> a_id a_user -> x' = x))
    (users a_registered) (users db').
Proof.
  apply (updateProfile_touches_profile_only (at_time 4000) a_user
           (Some (mkUpdateProfileSchema (Some "Al") None None None))
           a_registered).
  reflexivity.
Defined.

(** * What no sequence of requests does *)

Ltac untouched op :=
  unfold preserves; intros; unfold op;
  repeat match goal with
         | |- context [if ?c then _ else _] => destruct c
         | |- context [match ?x with _ => _ end] => destruct x
         end; simpl; assumption.

Section AuditLog.

Variable before : list LoginLog.

Lemma extends_loginLog_create t uid ty ip ua ok why :
  preserves (log_extends before)
    (prisma.loginLog_create t uid ty ip ua ok why).
Proof.
  intros db [suffix H]. unfold prisma.loginLog_create.
  destruct (negb (prisma.user_exists uid db)); simpl.
  - exists suffix. exact H.
  - eexists (suffix ++ [_]). rewrite H, app_assoc. reflexivity.
Qed.

Lemma extends_serve_all env (l : list Incoming) (db : Store) :
  log_extends before db -> log_extends before (serve_all env l db).
Proof.
  apply serve_all_preserves.
  - untouched prisma.user_create.
  - untouched prisma.user_update.
  - apply extends_loginLog_create.
  - untouched prisma.emailVerification_create.
  - untouched prisma.emailVerification_update_status.
  - untouched prisma.refreshToken_create.
  - untouched prisma.refreshToken_update_revoke.
  - untouched prisma.refreshToken_updateMany_revoke.
Qed.

End AuditLog.

(** X27: the audit log is append-only: whatever requests the routes
    serve, the login log afterwards is the login log before followed by
    new rows; no route edits, reorders or deletes an entry. *)
Theorem loginLogs_append_only :
  forall env (l : list Incoming) (db : Store),
    exists suffix,
      loginLogs (serve_all env l db) = loginLogs db ++ suffix.
Proof.
  intros env l db. apply extends_serve_all.
  exists []. rewrite app_nil_r. reflexivity.
Qed.

Section Identity.

Variable id : UserId.
Variable u : User.


Lemma identity_user_create t email pw fn ln un :
  preserves (same_identity id u) (prisma.user_create t email pw fn ln un).
Proof.
  intros db [u' [Hf H]]. unfold prisma.user_create.
  destruct (_ || _); simpl.
  - exists u'. split; [exact Hf | exact H].
  - exists u'. split; [| exact H]. apply find_app_some. exact Hf.
Qed.

Lemma identity_user_update id' d :
  preserves (same_identity id u) (prisma.user_update id' d).
Proof.
  intros db [u' [Hf H]]. unfold prisma.user_update.
  destruct (find (fun x => Nat.eqb (u_id x) id') (users db));
    [| exists u'; split; [exact Hf | exact H]].
  destruct (prisma.username_taken _ _); simpl;
    [exists u'; split; [exact Hf | exact H] |].
  exists (if Nat.eqb (u_id u') id' then apply_data d u' else u'). split.
  - simpl. rewrite find_map_same, Hf; [reflexivity |].
    intros x. destruct (Nat.eqb (u_id x) id'); reflexivity.
  - destruct (Nat.eqb (u_id u') id'); [simpl |]; exact H.
Qed.

Lemma identity_serve_all env (l : list Incoming) (db : Store) :
  same_identity id u db -> same_identity id u (serve_all env l db).
Proof.
  apply serve_all_preserves.
  - apply identity_user_create.
  - apply identity_user_update.
  - untouched prisma.loginLog_create.
  - untouched prisma.emailVerification_create.
  - untouched prisma.emailVerification_update_status.
  - untouched prisma.refreshToken_create.
  - untouched prisma.refreshToken_update_revoke.
  - untouched prisma.refreshToken_updateMany_revoke.
Qed.

End Identity.

(** X28: no sequence of requests deletes an account or changes its
    e-mail address, role, active flag or creation time: a user found
    under an id is still found under it afterwards, with these four
    columns as they were. In particular no route makes an administrator
    or reactivates a deactivated account. *)
Theorem account_identity_is_fixed :
  forall env (l : list Incoming) (db : Store) id u,
    find (fun x => Nat.eqb (u_id x) id) (users db) = Some u ->
    exists u',
      find (fun x => Nat.eqb (u_id x) id) (users (serve_all env l db))
        = Some u' /\
      u_email u' = u_email u /\ u_role u' = u_role u /\
      u_isActive u' = u_isActive u /\ u_createdAt u' = u_createdAt u.
Proof.
  intros env l db id u Hf.
  apply (identity_serve_all id u env l db).
  exists u. repeat split. exact Hf.
Qed.

Lemma account_identity_is_fixed_witness :
  exists u',
    find (fun x => Nat.eqb (u_id x) 0%nat)
      (users (serve_all sample_env a_busy_day a_registered)) = Some u' /\
    u_email u' = u_email a_row /\ u_role u' = u_role a_row /\
    u_isActive u' = u_isActive a_row /\ u_createdAt u' = u_createdAt a_row.
Proof.
  apply (account_identity_is_fixed sample_env a_busy_day a_registered 0%nat
           a_row).
  reflexivity.
Defined.

(** * utils/response.ts: pages *)

(** X29: for a positive page size and a non-negative total, both below
    2^53, [createPaginatedResponse] reports the least number of pages
    that hold [total] items, [hasNext] says exactly that items remain
    after page [page], and [hasPrev] that the page is not the first. *)
Theorem createPaginatedResponse_pages :
  forall now data total page limit message,
    0 <= total < 2 ^ 53 ->
    0 < limit < 2 ^ 53 ->
    let p := p_pagination
               (createPaginatedResponse now data total page limit message) in
    exists totalPages,
      pg_totalPages p = Num totalPages /\
      (totalPages - 1) * limit < total <= totalPages * limit /\
      (pg_hasNext p = true <-> page * limit < total) /\
      (pg_hasPrev p = true <-> 1 < page).
Proof.
  intros now data total page limit message Ht Hl.
  unfold createPaginatedResponse, ceil_div. cbv zeta.
  replace (limit =? 0) with false by (symmetry; apply Z.eqb_neq; lia).
  cbn [p_pagination pg_totalPages pg_hasNext pg_hasPrev js_lt].
  exists (- (- total / limit)).
  pose proof (Z.div_mod (- total) limit ltac:(lia)) as Hdm.
  pose proof (Z.mod_pos_bound (- total) limit ltac:(lia)) as Hmod.
  split; [reflexivity |]. split; [nia |].
  rewrite Z.ltb_lt, Z.ltb_lt. split; [| reflexivity].
  split; intros H; nia.
Qed.

Lemma createPaginatedResponse_pages_witness :
  let p := p_pagination
             (createPaginatedResponse 9000 [] 45 2 20 None) in
  exists totalPages,
    pg_totalPages p = Num totalPages /\
    (totalPages - 1) * 20 < 45 <= totalPages * 20 /\
    (pg_hasNext p = true <-> 2 * 20 < 45) /\
    (pg_hasPrev p = true <-> 1 < 2).
Proof.
  apply (createPaginatedResponse_pages 9000 [] 45 2 20 None); lia.
Defined.
